(** * Sum of sales: the CSV ingestion pipeline of [script.js]

    A shallow embedding of [parseDataUrl], [parseCsv] and the body of [init]
    (media-type check, sales-column inference, summation, display), and the
    properties of the pipeline that the specification states.

    Conventions of the embedding.
    - A JavaScript string is a [string]: its code units are modelled in the
      one-byte range U+0000..U+00FF, on which [trim] and [toLowerCase] are
      given exactly.
    - A JavaScript number is a [spec_float] at binary64 ([prec = 53],
      [emax = 1024]); [+] is [SFadd], rounding is to nearest, ties to even.
    - A [throw] is the [Throw] branch of [result]; the [catch] of [init]
      is the match on it in [render].
    - Index results that the code keeps as a number with [-1] for "absent"
      ([indexOf], [findIndex], [salesColumnIndex]) are [Z]. *)

From Stdlib Require Import ZArith List Bool Ascii String Lia.
From Stdlib Require Import Floats.SpecFloat.
From Stdlib Require DecimalString.
Import ListNotations.

Local Open Scope string_scope.
Local Open Scope Z_scope.

(** ** Exceptions *)

(** The errors the script can raise: one constructor per [throw] statement,
    plus the exceptions of the built-ins it calls. *)
Inductive error : Type :=
| InvalidDataUrl          (* Error('Invalid data URL') *)
| InvalidDataUrlFormat    (* Error('Invalid data URL format') *)
| Base64DecodeFailed      (* Error('Failed to decode base64 data') *)
| AttachmentNotFound      (* Error('CSV attachment not found') *)
| InvalidMimeType         (* Error('Invalid MIME type for CSV data') *)
| URIError                (* raised by decodeURIComponent *)
| FetchFailed             (* Error('Failed to fetch data: ...') or a rejected fetch *)
| NoSalesColumn           (* Error('Could not identify sales column') *)
| TypeError.              (* property access on undefined *)

Inductive result (A : Type) : Type :=
| Ok (a : A)
| Throw (e : error).
Arguments Ok {A} a.
Arguments Throw {A} e.

Definition bind {A B : Type} (r : result A) (k : A -> result B) : result B :=
  match r with
  | Ok a => k a
  | Throw e => Throw e
  end.

Notation "x <- r ;; k" := (bind r (fun x => k))
  (at level 61, r at next level, right associativity).

(** ** Built-ins of [String.prototype] and [Array.prototype] *)

Module JS.

(** [s.startsWith(p)] *)
Definition startsWith (s p : string) : bool := String.prefix p s.

(** [s.endsWith(suf)]: [s] is [suf], or the tail of [s] ends with [suf]. *)
Fixpoint endsWith (s suf : string) : bool :=
  (s =? suf)%string ||
  match s with
  | EmptyString => false
  | String _ s' => endsWith s' suf
  end.

(** [s.indexOf(sub)], [-1] when [sub] does not occur. *)
Definition indexOf (s sub : string) : Z :=
  match String.index 0 sub s with
  | Some n => Z.of_nat n
  | None => -1
  end.

(** [s.includes(sub)] *)
Definition includes (s sub : string) : bool :=
  match String.index 0 sub s with
  | Some _ => true
  | None => false
  end.

(** [s.substring(start, end)]: both arguments are clamped to [0, length]
    and swapped when [start > end]. *)
Definition substring (s : string) (start end_ : Z) : string :=
  let len := Z.of_nat (String.length s) in
  let clamp x := Z.min (Z.max x 0) len in
  let a := clamp start in
  let b := clamp end_ in
  let lo := Z.min a b in
  let hi := Z.max a b in
  String.substring (Z.to_nat lo) (Z.to_nat (hi - lo)) s.

(** [s.substring(start)] *)
Definition substringFrom (s : string) (start : Z) : string :=
  substring s start (Z.of_nat (String.length s)).

(** [s.split(sep)] for a non-empty separator.  The head of the result is the
    field being read; [skip] counts the code units of a separator already
    recognised that are still to be passed over. *)
Fixpoint split_aux (sep : string) (skip : nat) (s : string) : list string :=
  match s with
  | EmptyString => [EmptyString]
  | String c s' =>
      match skip with
      | S k => split_aux sep k s'
      | O =>
          if String.prefix sep s
          then EmptyString :: split_aux sep (Nat.pred (String.length sep)) s'
          else match split_aux sep 0 s' with
               | w :: ws => String c w :: ws
               | [] => [String c EmptyString]
               end
      end
  end.

Definition split (s sep : string) : list string := split_aux sep 0 s.

(** [s.replace(/pat/g, rep)] for a pattern that is a literal, non-empty
    string: the matches are the leftmost non-overlapping occurrences. *)
Fixpoint replaceAll_aux (pat rep : string) (skip : nat) (s : string) : string :=
  match s with
  | EmptyString => EmptyString
  | String c s' =>
      match skip with
      | S k => replaceAll_aux pat rep k s'
      | O =>
          if String.prefix pat s
          then rep ++ replaceAll_aux pat rep (Nat.pred (String.length pat)) s'
          else String c (replaceAll_aux pat rep 0 s')
      end
  end.

Definition replaceAll (s pat rep : string) : string := replaceAll_aux pat rep 0 s.

(** [(s.match(new RegExp(pat, 'g')) || []).length] for a literal, non-empty
    pattern: the number of leftmost non-overlapping occurrences. *)
Fixpoint matchCount_aux (pat : string) (skip : nat) (s : string) : nat :=
  match s with
  | EmptyString => O
  | String c s' =>
      match skip with
      | S k => matchCount_aux pat k s'
      | O =>
          if String.prefix pat s
          then S (matchCount_aux pat (Nat.pred (String.length pat)) s')
          else matchCount_aux pat 0 s'
      end
  end.

Definition matchCount (s pat : string) : nat := matchCount_aux pat 0 s.

(** White space and line terminators of ECMAScript, in the one-byte range:
    TAB, LF, VT, FF, CR, SP and NBSP. *)
Definition isWhiteSpace (c : ascii) : bool :=
  let n := nat_of_ascii c in
  (((9 <=? n) && (n <=? 13)) || (n =? 32) || (n =? 160))%nat.

Fixpoint trimStart (s : string) : string :=
  match s with
  | EmptyString => EmptyString
  | String c s' => if isWhiteSpace c then trimStart s' else s
  end.

Fixpoint trimEnd (s : string) : string :=
  match s with
  | EmptyString => EmptyString
  | String c s' =>
      match trimEnd s' with
      | EmptyString => if isWhiteSpace c then EmptyString else String c EmptyString
      | t => String c t
      end
  end.

(** [s.trim()] *)
Definition trim (s : string) : string := trimEnd (trimStart s).

(** Lower-casing of one code unit: A-Z, and the capital letters of the
    Latin-1 supplement (U+00C0..U+00DE without the multiplication sign). *)
Definition lowerChar (c : ascii) : ascii :=
  let n := nat_of_ascii c in
  if (((65 <=? n) && (n <=? 90)) ||
      ((192 <=? n) && (n <=? 222) && negb (n =? 215)))%nat
  then ascii_of_nat (n + 32)
  else c.

(** [s.toLowerCase()] *)
Fixpoint toLowerCase (s : string) : string :=
  match s with
  | EmptyString => EmptyString
  | String c s' => String (lowerChar c) (toLowerCase s')
  end.

(** [xs.findIndex(p)], [-1] when no element satisfies [p]. *)
Fixpoint findIndex_from {A : Type} (p : A -> bool) (xs : list A) (i : Z) : Z :=
  match xs with
  | [] => -1
  | x :: xs' => if p x then i else findIndex_from p xs' (i + 1)
  end.

Definition findIndex {A : Type} (p : A -> bool) (xs : list A) : Z :=
  findIndex_from p xs 0.

(** [xs[i]]: [None] is [undefined]. *)
Definition at_ {A : Type} (xs : list A) (i : Z) : option A :=
  if i <? 0 then None else nth_error xs (Z.to_nat i).

End JS.

(** ** Numbers *)

Module Num.

Definition prec : Z := 53.
Definition emax : Z := 1024.

Definition number : Type := spec_float.

Definition NaN : number := S754_nan.
Definition zero : number := S754_zero false.

(** [isNaN(x)] *)
Definition isNaN (x : number) : bool :=
  match x with
  | S754_nan => true
  | _ => false
  end.

(** [x + y] *)
Definition add (x y : number) : number := SFadd prec emax x y.

(** The Number value of the rational [num / den] ([num >= 0], [den > 0])
    with sign [neg]: the quotient is cut at the precision of the format
    and rounded on the position of the remainder. *)
Definition ofRatio (neg : bool) (num den : Z) : number :=
  if num =? 0 then S754_zero neg
  else
    let '(q, e, l) := SFdiv_core_binary prec emax num 0 den 0 in
    binary_round_aux prec emax neg q e l.

(** The Number value of [m * 10^e10]. *)
Definition ofDecimal (neg : bool) (m e10 : Z) : number :=
  if 0 <=? e10 then ofRatio neg (m * 10 ^ e10) 1
  else ofRatio neg m (10 ^ (- e10)).

Definition isDigit (c : ascii) : bool :=
  let n := nat_of_ascii c in ((48 <=? n) && (n <=? 57))%nat.

(** The longest prefix of decimal digits, and what follows it. *)
Fixpoint spanDigits (s : string) : string * string :=
  match s with
  | EmptyString => (EmptyString, EmptyString)
  | String c s' =>
      if isDigit c
      then let '(ds, rest) := spanDigits s' in (String c ds, rest)
      else (EmptyString, s)
  end.

(** The value of a string of decimal digits, after the digits [acc]. *)
Fixpoint digitsValue (acc : Z) (ds : string) : Z :=
  match ds with
  | EmptyString => acc
  | String c ds' => digitsValue (10 * acc + (Z.of_nat (nat_of_ascii c) - 48)) ds'
  end.

(** The value of the ExponentPart that [s] starts with; [0] when [s] does
    not start with a complete one ([e] or [E], an optional sign, one digit
    or more), which then is not part of the parsed prefix. *)
Definition exponentPart (s : string) : Z :=
  match s with
  | String c r =>
      if (Ascii.eqb c "e" || Ascii.eqb c "E")%bool then
        let '(neg, r') :=
          match r with
          | String "-" r' => (true, r')
          | String "+" r' => (false, r')
          | _ => (false, r)
          end in
        let '(ds, _) := spanDigits r' in
        match ds with
        | EmptyString => 0
        | _ => if neg then - digitsValue 0 ds else digitsValue 0 ds
        end
      else 0
  | EmptyString => 0
  end.

(** [parseFloat(input)]: leading white space is skipped, the longest prefix
    that is a StrDecimalLiteral is read, and its value is rounded to the
    nearest Number; [NaN] when no prefix is one. *)
Definition parseFloat (input : string) : number :=
  let s := JS.trimStart input in
  let '(neg, s) :=
    match s with
    | String "-" r => (true, r)
    | String "+" r => (false, r)
    | _ => (false, s)
    end in
  if String.prefix "Infinity" s then S754_infinity neg
  else
    let '(ip, s1) := spanDigits s in
    let '(fp, s2) :=
      match s1 with
      | String "." r => spanDigits r
      | _ => (EmptyString, s1)
      end in
    match (ip ++ fp)%string with
    | EmptyString => NaN
    | ds => ofDecimal neg (digitsValue 0 ds)
              (exponentPart s2 - Z.of_nat (String.length fp))
    end.

(** [parseFloat(v)] for a value that is a string or [undefined]: the
    argument is first converted to a string. *)
Definition parseFloatValue (v : option string) : number :=
  parseFloat (match v with Some s => s | None => "undefined" end).

(** The decimal digits of a natural number; ["0"] for zero. *)
Definition digitsOf (n : Z) : string :=
  DecimalString.NilZero.string_of_uint (N.to_uint (Z.to_N n)).

Fixpoint zeros (k : nat) : string :=
  match k with
  | O => EmptyString
  | S k' => String "0" (zeros k')
  end.

(** The integer [n] for which [n / 10^f - x] is closest to zero, the larger
    one when two are as close, for [x = m * 2^e]. *)
Definition scaledNearest (m : positive) (e : Z) (f : nat) : Z :=
  let p := 10 ^ Z.of_nat f in
  if 0 <=? e then Z.pos m * 2 ^ e * p
  else (2 * (Z.pos m * p) + 2 ^ (- e)) / (2 * 2 ^ (- e)).

(** Whether [m * 2^e >= 10^21]. *)
Definition atLeast1e21 (m : positive) (e : Z) : bool :=
  if 0 <=? e then 10 ^ 21 <=? Z.pos m * 2 ^ e
  else 10 ^ 21 * 2 ^ (- e) <=? Z.pos m.

Section ToFixed.

(** [Number::toString] leaves the last digit of a large number to the
    implementation; it is taken as given. *)
Variable numberToString : number -> string.

(** [x.toFixed(f)] for [0 <= f <= 100]. *)
Definition toFixed (x : number) (f : nat) : string :=
  match x with
  | S754_nan => "NaN"
  | S754_infinity false => "Infinity"
  | S754_infinity true => "-Infinity"
  | S754_zero _ => ("0" ++ match f with O => EmptyString | _ => "." ++ zeros f end)%string
  | S754_finite neg m e =>
      if atLeast1e21 m e then numberToString x
      else
        let ds := digitsOf (scaledNearest m e f) in
        let k := String.length ds in
        let ds := if (k <=? f)%nat then (zeros (S f - k) ++ ds)%string else ds in
        let k := String.length ds in
        let body :=
          match f with
          | O => ds
          | _ => (String.substring 0 (k - f) ds ++ "." ++ String.substring (k - f) f ds)%string
          end in
        ((if neg then "-" else EmptyString) ++ body)%string
  end.

End ToFixed.

End Num.

(** ** The script *)

Definition LF : string := String "010" EmptyString.
Definition CR : string := String "013" EmptyString.
Definition CRLF : string := String "013" (String "010" EmptyString).
Definition TAB : string := String "009" EmptyString.
Definition DQUOTE : string := String "034" EmptyString.

(** [xs[i]] used as the receiver of a method call: reading a property of
    [undefined] throws. *)
Definition receiver {A : Type} (xs : list A) (i : Z) : result A :=
  match JS.at_ xs i with
  | Some x => Ok x
  | None => Throw TypeError
  end.

(** What [parseDataUrl] returns. *)
Record DataUrl : Type := {
  mime : string;
  isBase64 : bool;
  payload : string
}.

(** [parseDataUrl(url)], lines 2-20. *)
Definition parseDataUrl (url : string) : result DataUrl :=
  if negb (JS.startsWith url "data:") then Throw InvalidDataUrl
  else
    let commaIndex := JS.indexOf url "," in
    if commaIndex =? -1 then Throw InvalidDataUrlFormat
    else
      let header := JS.substring url 5 commaIndex in
      let payload := JS.substringFrom url (commaIndex + 1) in
      let parts := JS.split header ";" in
      let mime :=
        match JS.at_ parts 0 with
        | Some (String c r) => String c r
        | _ => "text/plain"
        end in
      let isBase64 := existsb (String.eqb "base64") parts in
      Ok {| mime := mime; isBase64 := isBase64; payload := payload |}.

(** The media-type guard of [init], lines 112-114. *)
Definition checkMime (mime : string) : result unit :=
  if negb (JS.includes mime "csv") && negb (JS.includes mime "text")
  then Throw InvalidMimeType
  else Ok tt.

(** What [parseCsv] returns: [headers] is [None] when the object has no
    such property. *)
Record ParsedTable : Type := {
  headers : option (list string);
  rows : list (list string)
}.

Definition delimiters : list string := [","; ";"; TAB].

(** One turn of the loop of lines 53-59 on the state
    [(delimiter, maxCount)]. *)
Definition detectStep (line0 : string) (st : string * nat) (delim : string)
  : string * nat :=
  let '(delimiter, maxCount) := st in
  let count := JS.matchCount line0 delim in
  if (maxCount <? count)%nat then (delim, count) else (delimiter, maxCount).

(** Delimiter detection, lines 48-59. *)
Definition detectDelimiter (line0 : string) : string :=
  fst (fold_left (detectStep line0) delimiters (",", O)).

(** The inner callback of lines 64-70. *)
Definition unquoteField (field : string) : string :=
  if JS.startsWith field DQUOTE && JS.endsWith field DQUOTE
  then JS.replaceAll
         (JS.substring field 1 (Z.of_nat (String.length field) - 1))
         (DQUOTE ++ DQUOTE) DQUOTE
  else field.

(** The outer callback of lines 62-71. *)
Definition parseLine (delimiter line : string) : list string :=
  map unquoteField (JS.split line delimiter).

(** Lines 39-42: line endings are normalised, and blank lines dropped. *)
Definition csvLines (text : string) : list string :=
  let text := JS.replaceAll (JS.replaceAll text CRLF LF) CR LF in
  filter (fun line => negb (JS.trim line =? EmptyString)%string)
         (JS.split text LF).

(** Header inference, lines 73-82; [rows.shift()] takes the first row off
    [rows]. *)
Definition inferHeaders (rows : list (list string)) : result ParsedTable :=
  firstRow <- receiver rows 0 ;;
  let hasHeader :=
    forallb (fun cell => Num.isNaN (Num.parseFloat cell)) firstRow in
  if hasHeader
  then Ok {| headers := hd_error rows; rows := tl rows |}
  else Ok {| headers := None; rows := rows |}.

(** [parseCsv(text)], lines 37-83.  [lines[0]] is read in the first turn
    of the delimiter loop. *)
Definition parseCsv (text : string) : result ParsedTable :=
  let lines := csvLines text in
  if (List.length lines =? 0)%nat
  then Ok {| headers := Some []; rows := [] |}
  else
    line0 <- receiver lines 0 ;;
    let delimiter := detectDelimiter line0 in
    let rows := map (parseLine delimiter) lines in
    inferHeaders rows.

(** The callback of [findIndex], lines 137-139. *)
Definition isSalesHeader (header : string) : bool :=
  JS.includes (JS.toLowerCase header) "sales" ||
  JS.includes (JS.toLowerCase header) "sale".

(** [!isNaN(parseFloat(row[i]))] *)
Definition cellIsNumeric (row : list string) (i : Z) : bool :=
  negb (Num.isNaN (Num.parseFloatValue (JS.at_ row i))).

(** The test of line 147. *)
Definition columnIsNumeric (rows : list (list string)) (i : Z) : bool :=
  forallb (fun row => cellIsNumeric row i) rows.

(** The loop of lines 146-151 from column [i], with [todo] turns left. *)
Fixpoint scanColumns (rows : list (list string)) (todo : nat) (i : Z) : Z :=
  match todo with
  | O => -1
  | S todo' =>
      if columnIsNumeric rows i then i
      else scanColumns rows todo' (i + 1)
  end.

(** Sales-column inference, lines 134-157. *)
Definition findSalesColumn (t : ParsedTable) : result Z :=
  let salesColumnIndex := -1 in
  let salesColumnIndex :=
    match headers t with
    | Some hs => JS.findIndex isSalesHeader hs
    | None => salesColumnIndex
    end in
  let salesColumnIndex :=
    if salesColumnIndex =? -1 then
      match rows t with
      | row0 :: _ => scanColumns (rows t) (List.length row0) 0
      | [] => salesColumnIndex
      end
    else salesColumnIndex in
  if salesColumnIndex =? -1 then Throw NoSalesColumn
  else Ok salesColumnIndex.

(** One turn of the loop of lines 161-166. *)
Definition addRow (salesColumnIndex : Z) (totalSales : Num.number)
  (row : list string) : Num.number :=
  let value := Num.parseFloatValue (JS.at_ row salesColumnIndex) in
  if negb (Num.isNaN value) then Num.add totalSales value else totalSales.

(** The total, lines 160-166. *)
Definition sumSales (rows : list (list string)) (salesColumnIndex : Z)
  : Num.number :=
  fold_left (addRow salesColumnIndex) rows Num.zero.

(** Lines 131-166: from the CSV text to the total. *)
Definition totalSales (csvText : string) : result Num.number :=
  t <- parseCsv csvText ;;
  salesColumnIndex <- findSalesColumn t ;;
  Ok (sumSales (rows t) salesColumnIndex).

(** The element the result is written to. *)
Record Element : Type := {
  textContent : string;
  classList : list string
}.

Definition classRemove (names classes : list string) : list string :=
  filter (fun c => negb (existsb (String.eqb c) names)) classes.

Definition classAdd (name : string) (classes : list string) : list string :=
  if existsb (String.eqb name) classes then classes else classes ++ [name].

(** Lines 169-171 when [r] is the text to display, lines 174-177 when the
    [try] block threw. *)
Definition render (el : Element) (r : result string) : Element :=
  match r with
  | Ok text =>
      {| textContent := text;
         classList := classAdd "success" (classRemove ["loading"; "error"] (classList el)) |}
  | Throw _ =>
      {| textContent := "Error loading data";
         classList := classAdd "error" (classRemove ["loading"; "success"] (classList el)) |}
  end.

Record Attachment : Type := {
  name : string;
  url : string
}.

Definition attachments : list Attachment :=
  [ {| name := "data.csv";
       url := "data:text/csv;base64,UHJvZHVjdHMsU2FsZXMKUGhvbmVzLDEwMDAKQm9va3MsMTIzLjQ1Ck5vdGVib29rcywxMTEuMTEK" |} ].

Section Init.

(** The host's built-ins, [None] when they throw: [atob] followed by
    [TextDecoder.decode], [decodeURIComponent], and [fetch] followed by
    [response.text()] ([None] also when the response is not ok). *)
Variable atobText : string -> option string.
Variable decodeURIComponent : string -> option string.
Variable fetchText : string -> option string.
Variable numberToString : Num.number -> string.

Definition orThrow {A : Type} (e : error) (o : option A) : result A :=
  match o with
  | Some a => Ok a
  | None => Throw e
  end.

(** [decodeBase64ToText(b64)], lines 23-34. *)
Definition decodeBase64ToText (b64 : string) : result string :=
  orThrow Base64DecodeFailed (atobText b64).

(** Lines 112-120: the payload of an inline source, decoded. *)
Definition decodePayload (parts : DataUrl) : result string :=
  _ <- checkMime (mime parts) ;;
  if isBase64 parts then decodeBase64ToText (payload parts)
  else orThrow URIError (decodeURIComponent (payload parts)).

(** Lines 110-120: the inline source, from its URL to the CSV text. *)
Definition decodeDataUrl (url : string) : result string :=
  parts <- parseDataUrl url ;;
  decodePayload parts.

(** Lines 91-128. *)
Definition loadCsvText : result string :=
  csvAttachment <-
    orThrow AttachmentNotFound
      (find (fun att => (name att =? "data.csv")%string) attachments) ;;
  let url := url csvAttachment in
  if JS.startsWith url "data:" then decodeDataUrl url
  else orThrow FetchFailed (fetchText url).

(** Lines 131-169: from the CSV text to the text displayed. *)
Definition salesText (csvText : string) : result string :=
  total <- totalSales csvText ;;
  Ok (Num.toFixed numberToString total 2).

(** [init()], lines 86-179. *)
Definition init (totalSalesElement : Element) : Element :=
  render totalSalesElement (csvText <- loadCsvText ;; salesText csvText).

End Init.

(** ** Vocabulary of the properties *)

(** [sub] occurs in [s]. *)
Definition Contains (s sub : string) : Prop :=
  exists a b, s = (a ++ sub ++ b)%string.

(** Every code unit of [s] satisfies [P]. *)
Fixpoint AllChars (P : ascii -> Prop) (s : string) : Prop :=
  match s with
  | EmptyString => True
  | String c s' => P c /\ AllChars P s'
  end.

(** The code unit is white space or a line terminator. *)
Definition White (c : ascii) : Prop := JS.isWhiteSpace c = true.

(** The number of code units of [s] equal to [d]. *)
Fixpoint occurrences (d : ascii) (s : string) : nat :=
  match s with
  | EmptyString => O
  | String c s' => if Ascii.eqb c d then S (occurrences d s') else occurrences d s'
  end.

(** The segments [segs], separated by [sep]. *)
Fixpoint join (sep : string) (segs : list string) : string :=
  match segs with
  | [] => EmptyString
  | [x] => x
  | x :: rest => (x ++ sep ++ join sep rest)%string
  end.

(** [i] is the first index that satisfies [P]. *)
Definition FirstSuch (P : nat -> Prop) (i : nat) : Prop :=
  P i /\ forall j, (j < i)%nat -> ~ P j.

(** The field parses as a floating-point number. *)
Definition Numeric (cell : string) : Prop := Num.parseFloat cell <> Num.NaN.
Definition NonNumeric (cell : string) : Prop := Num.parseFloat cell = Num.NaN.

(** The header's lowercased text contains "sales" or "sale". *)
Definition NamesSales (header : string) : Prop :=
  Contains (JS.toLowerCase header) "sales" \/ Contains (JS.toLowerCase header) "sale".

(** The header at position [i] of the table names the sales. *)
Definition HeaderMatch (t : ParsedTable) (i : nat) : Prop :=
  exists hs h, headers t = Some hs /\ nth_error hs i = Some h /\ NamesSales h.

(** No header of the table names the sales; so it is when the table has
    no headers. *)
Definition NoHeaderMatch (t : ParsedTable) : Prop :=
  forall i, ~ HeaderMatch t i.

(** Every row's field at column [i] parses as a floating-point number; a
    row without a field there has none that parses. *)
Definition NumericColumn (rows : list (list string)) (i : nat) : Prop :=
  forall row, In row rows -> exists cell, nth_error row i = Some cell /\ Numeric cell.

(** The value that a row contributes to the total. *)
Definition cellValue (salesColumnIndex : Z) (row : list string) : Num.number :=
  Num.parseFloatValue (JS.at_ row salesColumnIndex).

(** The values that enter the total: the parsed fields of the column that
    are numbers, in row order. *)
Definition parsedValues (salesColumnIndex : Z) (rows : list (list string))
  : list Num.number :=
  filter (fun v => negb (Num.isNaN v)) (map (cellValue salesColumnIndex) rows).

(** Every doubled quote of [s] made a single one, as line 67 does it. *)
Definition collapseQuotes (s : string) : string :=
  JS.replaceAll s (DQUOTE ++ DQUOTE) DQUOTE.

(** The table of an input without lines. *)
Definition emptyTable : ParsedTable := {| headers := Some []; rows := [] |}.

(** The sample of the specification. *)
Definition sampleCsv : string :=
  ("Products,Sales" ++ LF ++ "Phones,1000" ++ LF ++ "Books,123.45" ++ LF
   ++ "Notebooks,111.11" ++ LF)%string.

(** ** The host's base64 decoder *)

Module Base64.

(** The value of a code unit of the base64 alphabet. *)
Definition value (c : ascii) : option N :=
  let n := N_of_ascii c in
  (if (65 <=? n) && (n <=? 90) then Some (n - 65)
   else if (97 <=? n) && (n <=? 122) then Some (n - 71)
   else if (48 <=? n) && (n <=? 57) then Some (n + 4)
   else if n =? 43 then Some 62
   else if n =? 47 then Some 63
   else None)%N.

(** ASCII white space: TAB, LF, FF, CR and SP. *)
Definition isAsciiWhitespace (c : ascii) : bool :=
  let n := N_of_ascii c in
  ((n =? 9) || (n =? 10) || (n =? 12) || (n =? 13) || (n =? 32))%N.

Fixpoint removeWhitespace (s : string) : string :=
  match s with
  | EmptyString => EmptyString
  | String c s' =>
      if isAsciiWhitespace c then removeWhitespace s'
      else String c (removeWhitespace s')
  end.

(** The text without its last code unit when that is [=]. *)
Fixpoint dropLastPad (s : string) : string :=
  match s with
  | EmptyString => EmptyString
  | String c EmptyString => if Ascii.eqb c "=" then EmptyString else s
  | String c s' => String c (dropLastPad s')
  end.

(** The values of the code units, [None] when one is not of the alphabet. *)
Fixpoint values (s : string) : option (list N) :=
  match s with
  | EmptyString => Some []
  | String c s' =>
      match value c, values s' with
      | Some v, Some vs => Some (v :: vs)
      | _, _ => None
      end
  end.

Definition byte (n : N) : ascii := ascii_of_N (n mod 256).

(** Four values give three bytes; at the end, three values give two bytes
    and two values give one, the bits left over being dropped. *)
Fixpoint bytes (vs : list N) : string :=
  match vs with
  | a :: b :: c :: d :: rest =>
      let n := (a * 262144 + b * 4096 + c * 64 + d)%N in
      String (byte (n / 65536)) (String (byte (n / 256)) (String (byte n) (bytes rest)))
  | [a; b; c] =>
      let n := (a * 4096 + b * 64 + c)%N in
      String (byte (n / 1024)) (String (byte (n / 4)) EmptyString)
  | [a; b] =>
      let n := (a * 64 + b)%N in
      String (byte (n / 16)) EmptyString
  | _ => EmptyString
  end.

(** [atob(data)], the forgiving base64 decoding: white space is removed, up
    to two [=] are taken off a text whose length is a multiple of four, a
    length of one more than a multiple of four or a code unit outside the
    alphabet is a failure ([None]), and the rest is decoded to a binary
    string. *)
Definition atob (data : string) : option string :=
  let data := removeWhitespace data in
  let data :=
    if (String.length data mod 4 =? 0)%nat
    then dropLastPad (dropLastPad data)
    else data in
  if (String.length data mod 4 =? 1)%nat then None
  else match values data with
       | Some vs => Some (bytes vs)
       | None => None
       end.

End Base64.

(** ** More vocabulary *)

(** The code unit is in the ASCII range. *)
Definition IsAscii (c : ascii) : Prop := (nat_of_ascii c < 128)%nat.

(** The host decodes a base64 payload of ASCII bytes to the text of these
    bytes: [atob] gives the bytes, and UTF-8 decoding leaves ASCII as it
    is. *)
Definition DecodesAscii (atobText : string -> option string) : Prop :=
  forall b64 text,
    Base64.atob b64 = Some text -> AllChars IsAscii text ->
    atobText b64 = Some text.

(** A line as [csvLines] keeps them: without line break, and not blank. *)
Definition KeptLine (line : string) : Prop :=
  occurrences "013" line = O /\ occurrences "010" line = O
  /\ JS.trim line <> EmptyString.

(** The boolean test of [AllChars IsAscii]. *)
Fixpoint asciiOnly (s : string) : bool :=
  match s with
  | EmptyString => true
  | String c s' => (nat_of_ascii c <? 128)%nat && asciiOnly s'
  end.

(** The payload of the attachment of line 94. *)
Definition embeddedPayload : string :=
  "UHJvZHVjdHMsU2FsZXMKUGhvbmVzLDEwMDAKQm9va3MsMTIzLjQ1Ck5vdGVib29rcywxMTEuMTEK".

(** The element in the error state of lines 175-177. *)
Definition errorState (el : Element) : Element :=
  {| textContent := "Error loading data";
     classList := classAdd "error" (classRemove ["loading"; "success"] (classList el)) |}.

(** The element in the success state of lines 169-171. *)
Definition successState (el : Element) (text : string) : Element :=
  {| textContent := text;
     classList := classAdd "success" (classRemove ["loading"; "error"] (classList el)) |}.

(** A text without line break. *)
Definition NoBreak (line : string) : Prop :=
  occurrences "013" line = O /\ occurrences "010" line = O.

(** The test of line 42. *)
Definition notBlank (line : string) : bool :=
  negb (JS.trim line =? EmptyString)%string.

(** The rows of the table with the header row, when there is one, put back
    in front. *)
Definition allRows (t : ParsedTable) : list (list string) :=
  match headers t with
  | Some h => h :: rows t
  | None => rows t
  end.

(** Every quote of [s] doubled. *)
Fixpoint escapeQuotes (s : string) : string :=
  match s with
  | EmptyString => EmptyString
  | String c s' =>
      if Ascii.eqb c "034" then String c (String c (escapeQuotes s'))
      else String c (escapeQuotes s')
  end.

(** The field as a CSV writer quotes it: quotes doubled, and a quote on
    each side. *)
Definition quoteField (field : string) : string :=
  (DQUOTE ++ escapeQuotes field ++ DQUOTE)%string.

(** The result is a text to display. *)
Definition Succeeds {A : Type} (r : result A) : Prop :=
  exists a, r = Ok a.

(** ** Properties of the built-ins *)

Lemma isNaN_true_iff (x : Num.number) : Num.isNaN x = true <-> x = Num.NaN.
Proof. destruct x; simpl; split; intro H; try reflexivity; discriminate. Qed.

Lemma isNaN_false_iff (x : Num.number) : Num.isNaN x = false <-> x <> Num.NaN.
Proof.
  destruct x; simpl; split; intro H; try reflexivity; try discriminate.
  now contradiction H.
Qed.

Lemma parseFloat_undefined : Num.parseFloatValue None = Num.NaN.
Proof. reflexivity. Qed.

Lemma forallb_NonNumeric (row : list string) :
  forallb (fun cell => Num.isNaN (Num.parseFloat cell)) row = true
  <-> Forall NonNumeric row.
Proof.
  rewrite forallb_forall, Forall_forall. unfold NonNumeric.
  split; intros H c Hc; apply isNaN_true_iff, H, Hc.
Qed.

Lemma NonNumeric_or_Numeric (row : list string) :
  Forall NonNumeric row \/ Exists Numeric row.
Proof.
  induction row as [|c row IH].
  - left. constructor.
  - destruct (Num.isNaN (Num.parseFloat c)) eqn:E.
    + destruct IH as [IH|IH].
      * left. constructor; [now apply isNaN_true_iff|exact IH].
      * right. now apply Exists_cons_tl.
    + right. apply Exists_cons_hd. now apply isNaN_false_iff.
Qed.

Lemma Exists_Numeric_not_all (row : list string) :
  Exists Numeric row ->
  forallb (fun cell => Num.isNaN (Num.parseFloat cell)) row = false.
Proof.
  intro H. destruct (forallb _ row) eqn:E; [|reflexivity].
  apply forallb_NonNumeric in E. rewrite Forall_forall in E.
  apply Exists_exists in H. destruct H as (c & Hc & Hn).
  contradiction Hn. now apply E.
Qed.

(** [parseFloat] reads the longest numeric prefix, and gives [NaN] when
    there is none. *)
Example parseFloat_prefix :
  Num.parseFloat "123.45abc" = Num.parseFloat "123.45"
  /\ Num.parseFloat "  -1e2," = Num.parseFloat "-100"
  /\ Num.parseFloat "5." = Num.parseFloat "5".
Proof. repeat split; vm_compute; reflexivity. Qed.

Example parseFloat_not_a_number :
  Num.parseFloat "N/A" = Num.NaN
  /\ Num.parseFloat EmptyString = Num.NaN
  /\ Num.parseFloat "." = Num.NaN
  /\ Num.parseFloat "Sales" = Num.NaN
  /\ Num.parseFloat "-Infinity" = S754_infinity true.
Proof. repeat split; vm_compute; reflexivity. Qed.

(** [toFixed] rounds the exact value of the number, ties upwards. *)
Example toFixed_rounding (numberToString : Num.number -> string) :
  Num.toFixed numberToString (Num.parseFloat "1.005") 2 = "1.00"
  /\ Num.toFixed numberToString (Num.parseFloat "0.125") 2 = "0.13"
  /\ Num.toFixed numberToString (Num.parseFloat "-1.5") 2 = "-1.50"
  /\ Num.toFixed numberToString Num.zero 2 = "0.00".
Proof. repeat split; vm_compute; reflexivity. Qed.

(** ** Properties of [parseCsv] *)

(** With one line or more, [parseCsv] is header inference on the lines
    split at the delimiter of the first. *)
Lemma parseCsv_lines (text l0 : string) (ls : list string) :
  csvLines text = l0 :: ls ->
  parseCsv text = inferHeaders (map (parseLine (detectDelimiter l0)) (l0 :: ls)).
Proof. intro H. unfold parseCsv. rewrite H. reflexivity. Qed.

Lemma parseCsv_no_lines (text : string) :
  csvLines text = [] ->
  parseCsv text = Ok {| headers := Some []; rows := [] |}.
Proof. intro H. unfold parseCsv. rewrite H. reflexivity. Qed.

Lemma inferHeaders_cons (first : list string) (rest : list (list string)) :
  inferHeaders (first :: rest) =
  if forallb (fun cell => Num.isNaN (Num.parseFloat cell)) first
  then Ok {| headers := Some first; rows := rest |}
  else Ok {| headers := None; rows := first :: rest |}.
Proof. reflexivity. Qed.

(** C10. The tabular parser is total: on every input string [parseCsv]
    returns a table; no access to [lines[0]] or [rows[0]] throws. *)
Theorem parseCsv_total (text : string) :
  exists t, parseCsv text = Ok t.
Proof.
  destruct (csvLines text) as [|l0 ls] eqn:E.
  - rewrite (parseCsv_no_lines _ E). eauto.
  - rewrite (parseCsv_lines _ _ _ E). cbn [map]. rewrite inferHeaders_cons.
    destruct (forallb _ _); eauto.
Qed.

(** C6. The first parsed row is the header row, taken off the rows, when
    every field of it fails to parse as a number; with one field that
    parses, the table has no headers and the first row stays a data row.
    One of the two always is the case. *)
Theorem header_row_iff_no_numeric_field (text l0 : string) (ls : list string) :
  csvLines text = l0 :: ls ->
  let delimiter := detectDelimiter l0 in
  let first := parseLine delimiter l0 in
  let rest := map (parseLine delimiter) ls in
  (Forall NonNumeric first ->
   parseCsv text = Ok {| headers := Some first; rows := rest |}) /\
  (Exists Numeric first ->
   parseCsv text = Ok {| headers := None; rows := first :: rest |}) /\
  (Forall NonNumeric first \/ Exists Numeric first).
Proof.
  intros E delimiter first rest.
  rewrite (parseCsv_lines _ _ _ E). cbn [map]. rewrite inferHeaders_cons.
  fold delimiter. fold first. fold rest.
  split; [|split].
  - intro H. apply forallb_NonNumeric in H. now rewrite H.
  - intro H. now rewrite (Exists_Numeric_not_all _ H).
  - apply NonNumeric_or_Numeric.
Qed.

Lemma header_row_witness :
  parseCsv ("a,b" ++ LF ++ "1,2")
  = Ok {| headers := Some ["a"; "b"]; rows := [["1"; "2"]] |}.
Proof.
  assert (E : csvLines ("a,b" ++ LF ++ "1,2") = ["a,b"; "1,2"]) by reflexivity.
  destruct (header_row_iff_no_numeric_field _ _ _ E) as [H _].
  apply H. repeat constructor.
Defined.

(** ** Properties of the aggregation *)

Lemma sumSales_from (idx : Z) (rows : list (list string)) (acc : Num.number) :
  fold_left (addRow idx) rows acc = fold_left Num.add (parsedValues idx rows) acc.
Proof.
  revert acc. induction rows as [|row rows IH]; intro acc; [reflexivity|].
  cbn [fold_left]. rewrite IH. unfold parsedValues. cbn [map filter].
  unfold addRow, cellValue.
  destruct (Num.isNaN (Num.parseFloatValue (JS.at_ row idx))); reflexivity.
Qed.

Lemma parsedValues_app (idx : Z) (xs ys : list (list string)) :
  parsedValues idx (xs ++ ys)%list
  = (parsedValues idx xs ++ parsedValues idx ys)%list.
Proof. unfold parsedValues. now rewrite map_app, filter_app. Qed.

Lemma parsedValues_skip (idx : Z) (row : list string) (rows : list (list string)) :
  cellValue idx row = Num.NaN ->
  parsedValues idx (row :: rows) = parsedValues idx rows.
Proof. intro H. unfold parsedValues. cbn [map filter]. now rewrite H. Qed.

(** C8. The total is the sum, from zero and in row order, of the parsed
    fields of the selected column that are numbers; a row whose field
    there fails to parse is skipped: the total is the one of the table
    without that row, so the rows after it are still added. *)
Theorem unparsable_rows_are_skipped (salesColumnIndex : Z) (rows : list (list string)) :
  sumSales rows salesColumnIndex
  = fold_left Num.add (parsedValues salesColumnIndex rows) Num.zero
  /\ forall before row after,
       rows = (before ++ row :: after)%list ->
       cellValue salesColumnIndex row = Num.NaN ->
       sumSales rows salesColumnIndex
       = sumSales (before ++ after)%list salesColumnIndex.
Proof.
  split.
  - apply sumSales_from.
  - intros before row after -> H. unfold sumSales.
    rewrite !sumSales_from, !parsedValues_app.
    now rewrite (parsedValues_skip _ _ _ H).
Qed.

Lemma unparsable_rows_witness :
  sumSales [["pens"; "1"]; ["ink"; "N/A"]; ["paper"; "2"]] 1
  = sumSales [["pens"; "1"]; ["paper"; "2"]] 1.
Proof.
  apply (proj2 (unparsable_rows_are_skipped 1
                  [["pens"; "1"]; ["ink"; "N/A"]; ["paper"; "2"]])
           [["pens"; "1"]] ["ink"; "N/A"] [["paper"; "2"]]);
    reflexivity.
Defined.

(** C7. On the sample, parsing gives the headers Products and Sales and
    three data rows; the column selected is the one named Sales; the total
    is 1000 + 123.45 + 111.11, which is the number 1234.56; and the text
    displayed is "1234.56", with two decimals. *)
Theorem sample_total_displayed (numberToString : Num.number -> string) :
  parseCsv sampleCsv
  = Ok {| headers := Some ["Products"; "Sales"];
          rows := [["Phones"; "1000"]; ["Books"; "123.45"]; ["Notebooks"; "111.11"]] |}
  /\ isSalesHeader "Products" = false
  /\ isSalesHeader "Sales" = true
  /\ (t <- parseCsv sampleCsv ;; findSalesColumn t) = Ok 1
  /\ totalSales sampleCsv
     = Ok (Num.add (Num.add (Num.add Num.zero (Num.parseFloat "1000"))
                            (Num.parseFloat "123.45"))
                   (Num.parseFloat "111.11"))
  /\ totalSales sampleCsv = Ok (Num.parseFloat "1234.56")
  /\ salesText numberToString sampleCsv = Ok "1234.56".
Proof. repeat split; vm_compute; reflexivity. Qed.

(** ** Properties of the delimiter inference *)

Lemma prefix_empty (s : string) : String.prefix EmptyString s = true.
Proof. destruct s; reflexivity. Qed.

Lemma prefix_single (d c : ascii) (s : string) :
  String.prefix (String d EmptyString) (String c s) = Ascii.eqb c d.
Proof.
  cbn [String.prefix]. destruct (ascii_dec d c) as [->|N].
  - now rewrite prefix_empty, Ascii.eqb_refl.
  - symmetry. apply Ascii.eqb_neq. congruence.
Qed.

(** For a pattern of one code unit, the matches are its occurrences. *)
Lemma matchCount_single (d : ascii) (s : string) :
  JS.matchCount s (String d EmptyString) = occurrences d s.
Proof.
  unfold JS.matchCount. induction s as [|c s IH]; [reflexivity|].
  cbn [JS.matchCount_aux occurrences]. rewrite prefix_single.
  cbn [String.length Nat.pred]. rewrite IH.
  destruct (Ascii.eqb c d); reflexivity.
Qed.

Lemma detectDelimiter_counts (line0 : string) :
  let commas := occurrences "," line0 in
  let semicolons := occurrences ";" line0 in
  let tabs := occurrences "009" line0 in
  detectDelimiter line0 =
  if ((commas <? semicolons) || (commas <? tabs))%nat
  then if (semicolons <? tabs)%nat then TAB else ";"
  else ",".
Proof.
  unfold detectDelimiter, delimiters, TAB. cbn [fold_left]. unfold detectStep.
  rewrite !matchCount_single.
  generalize (occurrences "," line0) (occurrences ";" line0) (occurrences "009" line0).
  intros c s t. cbn zeta.
  repeat match goal with
         | |- context [(?a <? ?b)%nat] =>
             destruct (Nat.ltb_spec a b); cbn [orb fst snd]
         end;
    try reflexivity; exfalso; lia.
Qed.

(** C3, as the code has it.  The occurrences of comma, semicolon and tab
    are counted in the first line only, and every line is split at the
    delimiter chosen there: the one with the highest count and, among those
    that share the highest count, the first in the order comma, semicolon,
    tab.  So comma is chosen when no count exceeds its own (all counts zero
    included), semicolon when it exceeds comma and tab does not exceed it,
    and tab when it exceeds both. *)
Theorem delimiter_is_first_with_highest_count (text l0 : string) (ls : list string) :
  csvLines text = l0 :: ls ->
  let commas := occurrences "," l0 in
  let semicolons := occurrences ";" l0 in
  let tabs := occurrences "009" l0 in
  parseCsv text = inferHeaders (map (parseLine (detectDelimiter l0)) (l0 :: ls))
  /\ ((semicolons <= commas)%nat /\ (tabs <= commas)%nat -> detectDelimiter l0 = ",")
  /\ ((commas < semicolons)%nat /\ (tabs <= semicolons)%nat -> detectDelimiter l0 = ";")
  /\ ((commas < tabs)%nat /\ (semicolons < tabs)%nat -> detectDelimiter l0 = TAB).
Proof.
  intros E commas semicolons tabs.
  split; [now apply parseCsv_lines|].
  rewrite (detectDelimiter_counts l0). fold commas semicolons tabs.
  repeat split; intros [H1 H2];
    destruct (Nat.ltb_spec commas semicolons), (Nat.ltb_spec commas tabs),
      (Nat.ltb_spec semicolons tabs); cbn [orb]; try reflexivity; lia.
Qed.

Lemma delimiter_witness :
  detectDelimiter "a,b;c,d,e" = ",".
Proof.
  assert (E : csvLines ("a,b;c,d,e" ++ LF ++ "1,2;3,4,5") = ["a,b;c,d,e"; "1,2;3,4,5"])
    by reflexivity.
  destruct (delimiter_is_first_with_highest_count _ _ _ E) as (_ & H & _).
  apply H. split; vm_compute; lia.
Defined.

(** C3, as stated, fails on a first line where semicolon and tab are
    equal, not zero, and above comma: the claim chooses comma, the code
    semicolon. *)
Lemma delimiter_tie_counterexample :
  occurrences ";" ("a;b" ++ TAB ++ "c") = 1%nat
  /\ occurrences "009" ("a;b" ++ TAB ++ "c") = 1%nat
  /\ occurrences "," ("a;b" ++ TAB ++ "c") = 0%nat
  /\ detectDelimiter ("a;b" ++ TAB ++ "c") = ";"
  /\ detectDelimiter ("a;b" ++ TAB ++ "c") <> ",".
Proof. repeat split; vm_compute; try reflexivity; discriminate. Qed.

(** ** Substrings *)

Lemma prefix_spec (p s : string) :
  String.prefix p s = true <-> exists b, s = (p ++ b)%string.
Proof.
  revert s. induction p as [|a p IH]; intro s.
  - rewrite prefix_empty. split; [intros _; now exists s|reflexivity].
  - destruct s as [|c s]; cbn [String.prefix].
    + split; [discriminate|]. intros [b H]. discriminate.
    + destruct (ascii_dec a c) as [->|N].
      * rewrite IH. split; intros [b H]; exists b.
        -- now rewrite H.
        -- cbn in H. congruence.
      * split; [discriminate|]. intros [b H]. cbn in H. congruence.
Qed.

Lemma includes_cons (sub : string) (c : ascii) (s : string) :
  JS.includes (String c s) sub
  = String.prefix sub (String c s) || JS.includes s sub.
Proof.
  unfold JS.includes. cbn [String.index].
  destruct (String.prefix sub (String c s)); [reflexivity|].
  destruct (String.index 0 sub s); reflexivity.
Qed.

(** [includes] decides the occurrence of a substring. *)
Lemma includes_Contains (s sub : string) :
  JS.includes s sub = true <-> Contains s sub.
Proof.
  induction s as [|c s IH].
  - unfold JS.includes, Contains. cbn [String.index].
    destruct sub as [|d sub].
    + split; [|reflexivity]. intros _. now exists EmptyString, EmptyString.
    + split; [discriminate|]. intros (a & b & H).
      destruct a; cbn in H; discriminate.
  - rewrite includes_cons, orb_true_iff, IH, prefix_spec. unfold Contains.
    split.
    + intros [[b H]|(a & b & H)].
      * exists EmptyString, b. exact H.
      * exists (String c a), b. cbn. now rewrite H.
    + intros (a & b & H). destruct a as [|c' a]; cbn in H.
      * left. now exists b.
      * right. exists a, b. congruence.
Qed.

Lemma includes_false_iff (s sub : string) :
  JS.includes s sub = false <-> ~ Contains s sub.
Proof.
  rewrite <- includes_Contains. destruct (JS.includes s sub); split; easy.
Qed.

(** ** Properties of the media-type guard *)

Lemma checkMime_throws_iff (m : string) :
  checkMime m = Throw InvalidMimeType
  <-> ~ Contains m "csv" /\ ~ Contains m "text".
Proof.
  unfold checkMime. rewrite <- !includes_false_iff.
  destruct (JS.includes m "csv"), (JS.includes m "text"); cbn;
    split; try easy; intros [? ?]; discriminate.
Qed.

(** C2, as the code has it.  Decoding the payload fails with the
    unsupported-media-type error exactly when neither "csv" nor "text"
    occurs in the media type as written: the letters are compared as they
    are, lower case to lower case. *)
Theorem media_type_check_as_written
  (atobText decodeURIComponent : string -> option string) (parts : DataUrl) :
  decodePayload atobText decodeURIComponent parts = Throw InvalidMimeType
  <-> ~ Contains (mime parts) "csv" /\ ~ Contains (mime parts) "text".
Proof.
  rewrite <- checkMime_throws_iff. unfold decodePayload, bind.
  destruct (checkMime (mime parts)) as [[]|e] eqn:E.
  - unfold decodeBase64ToText, orThrow.
    destruct (isBase64 parts);
      [destruct (atobText _)|destruct (decodeURIComponent _)];
      split; discriminate.
  - unfold checkMime in E.
    destruct (negb _ && negb _); [|discriminate].
    injection E as <-. split; reflexivity.
Qed.

(** C2, as stated, fails on an upper-case media type: "csv" occurs in the
    lowercased "TEXT/CSV", and the payload is still refused. *)
Lemma uppercase_media_type_counterexample :
  JS.includes (JS.toLowerCase "TEXT/CSV") "csv" = true
  /\ checkMime "TEXT/CSV" = Throw InvalidMimeType
  /\ decodePayload (fun b64 => Some b64) (fun p => Some p)
       {| mime := "TEXT/CSV"; isBase64 := false; payload := "a,b" |}
     = Throw InvalidMimeType.
Proof. repeat split; reflexivity. Qed.

(** ** Properties of the sales-column inference *)

Lemma isSalesHeader_iff (h : string) : isSalesHeader h = true <-> NamesSales h.
Proof.
  unfold isSalesHeader, NamesSales. now rewrite orb_true_iff, !includes_Contains.
Qed.

(** [findIndex] returns [-1] when no element satisfies the test, and the
    position of the first that does otherwise. *)
Lemma findIndex_from_spec {A : Type} (p : A -> bool) (xs : list A) (i0 : Z) :
  (JS.findIndex_from p xs i0 = -1 /\ forall x, In x xs -> p x = false)
  \/ exists n x,
       JS.findIndex_from p xs i0 = i0 + Z.of_nat n
       /\ nth_error xs n = Some x /\ p x = true
       /\ forall j y, (j < n)%nat -> nth_error xs j = Some y -> p y = false.
Proof.
  revert i0. induction xs as [|x xs IH]; intro i0; cbn [JS.findIndex_from].
  - left. split; [reflexivity|]. intros x [].
  - destruct (p x) eqn:E.
    + right. exists O, x. repeat split; [f_equal; lia|exact E|]. intros j y Hj. lia.
    + destruct (IH (i0 + 1)) as [[H1 H2]|(n & y & H1 & H2 & H3 & H4)].
      * left. split; [exact H1|]. intros z [<-|Hz]; [exact E|now apply H2].
      * right. exists (S n), y. repeat split; [rewrite H1; lia|exact H2|exact H3|].
        intros [|j] z Hj Hz; cbn in Hz; [congruence|]. apply (H4 j); [lia|exact Hz].
Qed.

Lemma at_of_nat {A : Type} (xs : list A) (n : nat) :
  JS.at_ xs (Z.of_nat n) = nth_error xs n.
Proof.
  unfold JS.at_. destruct (Z.ltb_spec (Z.of_nat n) 0); [lia|].
  now rewrite Nat2Z.id.
Qed.

Lemma cellIsNumeric_iff (row : list string) (n : nat) :
  cellIsNumeric row (Z.of_nat n) = true
  <-> exists cell, nth_error row n = Some cell /\ Numeric cell.
Proof.
  unfold cellIsNumeric, Numeric. rewrite at_of_nat, negb_true_iff, isNaN_false_iff.
  destruct (nth_error row n) as [cell|]; cbn [Num.parseFloatValue].
  - split; [eauto|]. now intros (c & [= <-] & H).
  - change (Num.parseFloat "undefined") with Num.NaN.
    split; [intro H; now contradiction H|]. intros (c & H & _). discriminate.
Qed.

Lemma columnIsNumeric_iff (rows : list (list string)) (n : nat) :
  columnIsNumeric rows (Z.of_nat n) = true <-> NumericColumn rows n.
Proof.
  unfold columnIsNumeric, NumericColumn. rewrite forallb_forall.
  split; intros H row Hr; apply cellIsNumeric_iff, H, Hr.
Qed.

Lemma columnIsNumeric_false_iff (rows : list (list string)) (n : nat) :
  columnIsNumeric rows (Z.of_nat n) = false <-> ~ NumericColumn rows n.
Proof.
  rewrite <- columnIsNumeric_iff. destruct (columnIsNumeric _ _); split; easy.
Qed.

(** A column that is numeric in every row lies within the first row. *)
Lemma NumericColumn_within (row0 : list string) (rows : list (list string)) (n : nat) :
  NumericColumn (row0 :: rows) n -> (n < List.length row0)%nat.
Proof.
  intro H. destruct (H row0 (or_introl eq_refl)) as (cell & Hc & _).
  apply nth_error_Some. congruence.
Qed.

(** The column loop returns [-1] when no column of its range is numeric,
    and the first that is otherwise. *)
Lemma scanColumns_spec (rows : list (list string)) (todo i0 : nat) :
  (scanColumns rows todo (Z.of_nat i0) = -1
   /\ forall j, (i0 <= j < i0 + todo)%nat -> ~ NumericColumn rows j)
  \/ exists n,
       scanColumns rows todo (Z.of_nat i0) = Z.of_nat n
       /\ (i0 <= n < i0 + todo)%nat /\ NumericColumn rows n
       /\ forall j, (i0 <= j < n)%nat -> ~ NumericColumn rows j.
Proof.
  revert i0. induction todo as [|todo IH]; intro i0; cbn [scanColumns].
  - left. split; [reflexivity|]. intros j Hj. lia.
  - destruct (columnIsNumeric rows (Z.of_nat i0)) eqn:E.
    + right. exists i0. split; [reflexivity|]. split; [lia|].
      split; [now apply columnIsNumeric_iff|]. intros j Hj. lia.
    + apply columnIsNumeric_false_iff in E.
      replace (Z.of_nat i0 + 1) with (Z.of_nat (S i0)) by lia.
      destruct (IH (S i0)) as [[H1 H2]|(n & H1 & H2 & H3 & H4)].
      * left. split; [exact H1|]. intros j Hj.
        destruct (Nat.eq_dec j i0) as [->|N]; [exact E|]. apply H2. lia.
      * right. exists n. split; [exact H1|]. split; [lia|].
        split; [exact H3|].
        intros j Hj. destruct (Nat.eq_dec j i0) as [->|N]; [exact E|].
        apply H4. lia.
Qed.

(** The fallback of lines 143-153 on a table whose headers did not match. *)
Lemma fallback_spec (rows : list (list string)) :
  let r := match rows with
           | row0 :: _ => scanColumns rows (List.length row0) 0
           | [] => -1
           end in
  (r = -1 /\ (rows = [] \/ forall n, ~ NumericColumn rows n))
  \/ exists n, r = Z.of_nat n /\ rows <> [] /\ FirstSuch (NumericColumn rows) n.
Proof.
  destruct rows as [|row0 rest]; cbn zeta.
  - left. split; [reflexivity|now left].
  - destruct (scanColumns_spec (row0 :: rest) (List.length row0) 0)
      as [[H1 H2]|(n & H1 & H2 & H3 & H4)].
    + left. split; [exact H1|]. right. intros n Hn.
      apply (H2 n); [|exact Hn].
      pose proof (NumericColumn_within _ _ _ Hn). lia.
    + right. exists n. split; [exact H1|]. split; [discriminate|].
      split; [exact H3|]. intros j Hj. apply H4. lia.
Qed.

Lemma no_headers_no_match (rows : list (list string)) :
  NoHeaderMatch {| headers := None; rows := rows |}.
Proof. intros i (hs & h & H & _). discriminate. Qed.

Lemma fallback_result (t : ParsedTable) :
  NoHeaderMatch t ->
  match (let r := match rows t with
                  | row0 :: _ => scanColumns (rows t) (List.length row0) 0
                  | [] => -1
                  end in
         if r =? -1 then Throw NoSalesColumn else Ok r) with
  | Ok i =>
      exists n, i = Z.of_nat n
        /\ (FirstSuch (HeaderMatch t) n
            \/ (NoHeaderMatch t /\ rows t <> []
                /\ FirstSuch (NumericColumn (rows t)) n))
  | Throw e =>
      e = NoSalesColumn /\ NoHeaderMatch t
      /\ (rows t = [] \/ forall n, ~ NumericColumn (rows t) n)
  end.
Proof.
  intro Hno. cbn zeta.
  destruct (fallback_spec (rows t)) as [[H1 H2]|(n & H1 & H2 & H3)];
    cbn zeta in H1; rewrite H1.
  - cbn. auto.
  - destruct (Z.eqb_spec (Z.of_nat n) (-1)); [lia|].
    exists n. split; [reflexivity|]. right. auto.
Qed.

(** C5, as the code has it.  The column selected is the position of the
    first header whose lowercased text contains "sales" or "sale"; when no
    header does (or the table has no headers) and the table has a data row,
    it is the first column at which the field of every row parses as a
    number; the no-sales-column error is raised exactly in what is left:
    no header matches, and the table has no data row or no column that is
    numeric in every row. *)
Theorem sales_column_selection (t : ParsedTable) :
  match findSalesColumn t with
  | Ok i =>
      exists n, i = Z.of_nat n
        /\ (FirstSuch (HeaderMatch t) n
            \/ (NoHeaderMatch t /\ rows t <> []
                /\ FirstSuch (NumericColumn (rows t)) n))
  | Throw e =>
      e = NoSalesColumn /\ NoHeaderMatch t
      /\ (rows t = [] \/ forall n, ~ NumericColumn (rows t) n)
  end.
Proof.
  unfold findSalesColumn. cbn zeta.
  destruct (headers t) as [hs|] eqn:Eh.
  - unfold JS.findIndex.
    destruct (findIndex_from_spec isSalesHeader hs 0)
      as [[H1 H2]|(n & h & H1 & H2 & H3 & H4)]; rewrite H1.
    + cbn [Z.eqb Pos.eqb]. apply fallback_result.
      intros i (hs' & h & Hs & Hn & Hm). rewrite Eh in Hs. injection Hs as <-.
      apply isSalesHeader_iff in Hm. apply nth_error_In in Hn.
      rewrite (H2 _ Hn) in Hm. discriminate.
    + cbn [Z.add].
      destruct (Z.of_nat n =? -1) eqn:En; [apply Z.eqb_eq in En; lia|].
      rewrite En.
      exists n. split; [reflexivity|]. left. split.
      * exists hs, h. split; [exact Eh|]. split; [exact H2|].
        now apply isSalesHeader_iff.
      * intros j Hj (hs' & h' & Hs & Hn & Hm). rewrite Eh in Hs.
        injection Hs as <-. apply isSalesHeader_iff in Hm.
        rewrite (H4 j h' Hj Hn) in Hm. discriminate.
  - cbn [Z.eqb Pos.eqb]. apply fallback_result.
    intros i (hs & h & H & _). congruence.
Qed.

(** C5, as stated, fails on the table without rows: column 0 is a column
    at which every row's field parses (there is no row), no header
    matches, and still no index is selected. *)
Lemma empty_table_counterexample :
  NoHeaderMatch emptyTable
  /\ FirstSuch (NumericColumn (rows emptyTable)) 0
  /\ findSalesColumn emptyTable = Throw NoSalesColumn.
Proof.
  split; [|split].
  - intros i (hs & h & [= <-] & Hn & _). destruct i; discriminate.
  - split; [intros row []|]. intros j Hj. lia.
  - reflexivity.
Qed.

(** ** Properties of the field unquoting *)

Lemma length_app (a b : string) :
  String.length (a ++ b) = (String.length a + String.length b)%nat.
Proof. induction a as [|c a IH]; cbn; [reflexivity|now rewrite IH]. Qed.

Lemma append_assoc (a b c : string) : ((a ++ b) ++ c = a ++ b ++ c)%string.
Proof. induction a as [|x a IH]; cbn; [reflexivity|now rewrite IH]. Qed.

Lemma substring_0_app (a b : string) :
  String.substring 0 (String.length a) (a ++ b) = a.
Proof.
  induction a as [|c a IH]; cbn.
  - destruct b; reflexivity.
  - now rewrite IH.
Qed.

Lemma substring_skip (a b : string) (m : nat) :
  String.substring (String.length a) m (a ++ b) = String.substring 0 m b.
Proof. induction a as [|c a IH]; cbn; [reflexivity|exact IH]. Qed.

Lemma substring_0_all (s : string) :
  String.substring 0 (String.length s) s = s.
Proof. induction s as [|c s IH]; cbn; [reflexivity|now rewrite IH]. Qed.

Lemma endsWith_spec (s suf : string) :
  JS.endsWith s suf = true <-> exists a, s = (a ++ suf)%string.
Proof.
  induction s as [|c s IH]; cbn [JS.endsWith].
  - rewrite orb_false_r, String.eqb_eq. split.
    + intros <-. now exists EmptyString.
    + intros [a H]. destruct a; cbn in H; [exact H|discriminate].
  - rewrite orb_true_iff, String.eqb_eq, IH. split.
    + intros [<-|[a ->]]; [now exists EmptyString|now exists (String c a)].
    + intros [a H]. destruct a as [|c' a]; cbn in H.
      * now left.
      * right. exists a. congruence.
Qed.

(** The text between the outer quotes is what [substring] takes. *)
Lemma substring_between_quotes (inner : string) :
  let field := (DQUOTE ++ inner ++ DQUOTE)%string in
  JS.substring field 1 (Z.of_nat (String.length field) - 1) = inner.
Proof.
  cbn zeta. unfold JS.substring.
  change (DQUOTE ++ inner ++ DQUOTE)%string with (String "034" (inner ++ DQUOTE)).
  cbn [String.length]. rewrite length_app. cbn [String.length DQUOTE].
  set (n := String.length inner).
  replace (Z.min (Z.max 1 0) (Z.of_nat (S (n + 1)))) with 1 by lia.
  replace (Z.min (Z.max (Z.of_nat (S (n + 1)) - 1) 0) (Z.of_nat (S (n + 1))))
    with (Z.of_nat (n + 1)) by lia.
  replace (Z.min 1 (Z.of_nat (n + 1))) with 1 by lia.
  replace (Z.max 1 (Z.of_nat (n + 1))) with (Z.of_nat (n + 1)) by lia.
  replace (Z.to_nat (Z.of_nat (n + 1) - 1)) with n by lia.
  change (Z.to_nat 1) with 1%nat. cbn [String.substring].
  apply substring_0_app.
Qed.

Lemma Contains_cons (c : ascii) (s sub : string) :
  Contains s sub -> Contains (String c s) sub.
Proof. intros (a & b & ->). now exists (String c a), b. Qed.

Lemma Contains_prefix (s sub : string) :
  String.prefix sub s = true -> Contains s sub.
Proof. intro H. apply prefix_spec in H as [b ->]. now exists EmptyString, b. Qed.

(** A string without a doubled quote is left as it is. *)
Lemma collapseQuotes_none (s : string) :
  ~ Contains s (DQUOTE ++ DQUOTE) -> collapseQuotes s = s.
Proof.
  unfold collapseQuotes, JS.replaceAll.
  induction s as [|c s IH]; intro H; [reflexivity|].
  cbn [JS.replaceAll_aux].
  destruct (String.prefix (DQUOTE ++ DQUOTE) (String c s)) eqn:E.
  - contradiction H. now apply Contains_prefix.
  - rewrite IH; [reflexivity|]. intro C. apply H. now apply Contains_cons.
Qed.

(** The first doubled quote becomes one quote, and the collapse goes on
    after it. *)
Lemma collapseQuotes_first (a b : string) :
  ~ Contains (a ++ DQUOTE) (DQUOTE ++ DQUOTE) ->
  collapseQuotes (a ++ (DQUOTE ++ DQUOTE) ++ b)
  = (a ++ DQUOTE ++ collapseQuotes b)%string.
Proof.
  unfold collapseQuotes, JS.replaceAll.
  induction a as [|c a IH]; intro H.
  - change ((EmptyString ++ (DQUOTE ++ DQUOTE) ++ b)%string)
      with (String "034" (String "034" b)).
    cbn [JS.replaceAll_aux].
    replace (String.prefix (DQUOTE ++ DQUOTE) (String "034" (String "034" b)))
      with true by (symmetry; apply prefix_spec; now exists b).
    reflexivity.
  - change ((String c a ++ (DQUOTE ++ DQUOTE) ++ b)%string)
      with (String c (a ++ (DQUOTE ++ DQUOTE) ++ b)).
    cbn [JS.replaceAll_aux].
    destruct (String.prefix (DQUOTE ++ DQUOTE) (String c (a ++ (DQUOTE ++ DQUOTE) ++ b))) eqn:E.
    + contradiction H. apply prefix_spec in E as [x E].
      cbn in E. injection E as -> E.
      destruct a as [|c2 a]; cbn in E |- *.
      * now exists EmptyString, EmptyString.
      * injection E as -> _. exists EmptyString, (a ++ DQUOTE)%string. reflexivity.
    + rewrite IH; [reflexivity|]. intro C. apply H.
      change ((String c a ++ DQUOTE)%string) with (String c (a ++ DQUOTE)).
      now apply Contains_cons.
Qed.

Lemma unquoteField_wrapped (inner : string) :
  unquoteField (DQUOTE ++ inner ++ DQUOTE) = collapseQuotes inner.
Proof.
  unfold unquoteField.
  assert (S : JS.startsWith (DQUOTE ++ inner ++ DQUOTE) DQUOTE = true).
  { apply prefix_spec. now exists (inner ++ DQUOTE)%string. }
  assert (E : JS.endsWith (DQUOTE ++ inner ++ DQUOTE) DQUOTE = true).
  { apply endsWith_spec. exists (DQUOTE ++ inner)%string.
    cbn. reflexivity || (f_equal; induction inner; cbn; congruence). }
  rewrite S, E. cbn [andb].
  now rewrite (substring_between_quotes inner).
Qed.

Lemma unquoteField_verbatim (field : string) :
  (forall inner, field <> (DQUOTE ++ inner ++ DQUOTE)%string) ->
  unquoteField field = field.
Proof.
  intro H. unfold unquoteField.
  destruct (JS.startsWith field DQUOTE) eqn:S; [|reflexivity].
  destruct (JS.endsWith field DQUOTE) eqn:E; [|reflexivity].
  apply prefix_spec in S as [r S]. apply endsWith_spec in E as [a E].
  destruct a as [|c a].
  - cbn in E. rewrite E. reflexivity.
  - exfalso. apply (H a). rewrite E. rewrite E in S. cbn in S.
    injection S as -> _. reflexivity.
Qed.

(** C9. Every line is split at the delimiter and each field unquoted.  A
    field wrapped in a pair of double quotes loses the two outer quotes,
    and every doubled quote inside becomes a single one, from the left:
    text without a doubled quote is unchanged, and the first doubled quote
    becomes one quote, after which the collapse goes on.  A field that is
    not wrapped in a pair of quotes is passed through as it is.  The field
    made of a quote, 12, two quotes, 3 and three quotes is decoded to 12,
    a quote, 3 and a quote. *)
Theorem quoted_fields_are_unescaped :
  (forall delimiter line,
     parseLine delimiter line = map unquoteField (JS.split line delimiter))
  /\ (forall inner,
        unquoteField (DQUOTE ++ inner ++ DQUOTE) = collapseQuotes inner)
  /\ (forall field,
        (forall inner, field <> (DQUOTE ++ inner ++ DQUOTE)%string) ->
        unquoteField field = field)
  /\ (forall s, ~ Contains s (DQUOTE ++ DQUOTE) -> collapseQuotes s = s)
  /\ (forall a b,
        ~ Contains (a ++ DQUOTE) (DQUOTE ++ DQUOTE) ->
        collapseQuotes (a ++ (DQUOTE ++ DQUOTE) ++ b)
        = (a ++ DQUOTE ++ collapseQuotes b)%string)
  /\ unquoteField (DQUOTE ++ "12" ++ DQUOTE ++ DQUOTE ++ "3" ++ DQUOTE ++ DQUOTE)
     = ("12" ++ DQUOTE ++ "3" ++ DQUOTE)%string.
Proof.
  split; [reflexivity|].
  split; [exact unquoteField_wrapped|].
  split; [exact unquoteField_verbatim|].
  split; [exact collapseQuotes_none|].
  split; [exact collapseQuotes_first|].
  reflexivity.
Qed.

Lemma quoted_fields_witness :
  unquoteField ("7" ++ DQUOTE) = ("7" ++ DQUOTE)%string
  /\ collapseQuotes "12" = "12".
Proof.
  destruct quoted_fields_are_unescaped as (_ & _ & Hverbatim & Hnone & _).
  split.
  - apply Hverbatim. intros inner H. discriminate H.
  - apply Hnone. intros (a & b & H).
    destruct a as [|c1 [|c2 [|c3 a]]]; cbn in H; try discriminate;
      destruct a; discriminate.
Defined.

(** ** Properties of [parseDataUrl] *)

Lemma occurrences_app (d : ascii) (a b : string) :
  occurrences d (a ++ b) = (occurrences d a + occurrences d b)%nat.
Proof.
  induction a as [|c a IH]; cbn; [reflexivity|].
  rewrite IH. destruct (Ascii.eqb c d); reflexivity.
Qed.

Lemma occurrences_cons_0 (d c : ascii) (s : string) :
  occurrences d (String c s) = O -> Ascii.eqb c d = false /\ occurrences d s = O.
Proof. cbn. destruct (Ascii.eqb c d); [discriminate|auto]. Qed.

(** The first occurrence of a code unit is where [indexOf] finds it. *)
Lemma index_first (d : ascii) (a b : string) :
  occurrences d a = O ->
  String.index 0 (String d EmptyString) (a ++ String d b)
  = Some (String.length a).
Proof.
  induction a as [|c a IH]; intro H.
  - cbn [append String.index]. now rewrite prefix_single, Ascii.eqb_refl.
  - apply occurrences_cons_0 in H as [Hc Ha].
    change ((String c a ++ String d b)%string) with (String c (a ++ String d b)).
    cbn [String.index]. rewrite prefix_single, Hc, (IH Ha). reflexivity.
Qed.

Lemma split_single_cons (d c : ascii) (s : string) :
  JS.split (String c s) (String d EmptyString)
  = if Ascii.eqb c d
    then EmptyString :: JS.split s (String d EmptyString)
    else match JS.split s (String d EmptyString) with
         | w :: ws => String c w :: ws
         | [] => [String c EmptyString]
         end.
Proof. unfold JS.split. cbn [JS.split_aux]. now rewrite prefix_single. Qed.

(** A string without the separator is one segment. *)
Lemma split_no_separator (d : ascii) (a : string) :
  occurrences d a = O -> JS.split a (String d EmptyString) = [a].
Proof.
  induction a as [|c a IH]; intro H; [reflexivity|].
  apply occurrences_cons_0 in H as [Hc Ha].
  now rewrite split_single_cons, Hc, (IH Ha).
Qed.

(** The first segment ends at the first separator. *)
Lemma split_at_separator (d : ascii) (a b : string) :
  occurrences d a = O ->
  JS.split (a ++ String d b) (String d EmptyString)
  = a :: JS.split b (String d EmptyString).
Proof.
  induction a as [|c a IH]; intro H.
  - cbn [append]. now rewrite split_single_cons, Ascii.eqb_refl.
  - apply occurrences_cons_0 in H as [Hc Ha].
    change ((String c a ++ String d b)%string) with (String c (a ++ String d b)).
    now rewrite split_single_cons, Hc, (IH Ha).
Qed.

(** Splitting gives back the segments that were joined. *)
Lemma split_join (d : ascii) (segs : list string) :
  segs <> [] ->
  Forall (fun seg => occurrences d seg = O) segs ->
  JS.split (join (String d EmptyString) segs) (String d EmptyString) = segs.
Proof.
  induction segs as [|x rest IH]; intros Hne Hall; [now contradiction Hne|].
  inversion Hall as [|? ? Hx Hrest]; subst.
  destruct rest as [|y rest].
  - cbn [join]. now apply split_no_separator.
  - change (join (String d EmptyString) (x :: y :: rest))
      with (x ++ String d (join (String d EmptyString) (y :: rest)))%string.
    rewrite (split_at_separator _ _ _ Hx). f_equal.
    apply IH; [discriminate|exact Hrest].
Qed.

Lemma occurrences_join (d : ascii) (sep : string) (segs : list string) :
  occurrences d sep = O ->
  Forall (fun seg => occurrences d seg = O) segs ->
  occurrences d (join sep segs) = O.
Proof.
  intros Hsep Hall. induction Hall as [|x rest Hx Hrest IH]; [reflexivity|].
  destruct rest as [|y rest]; [exact Hx|].
  change (join sep (x :: y :: rest)) with (x ++ sep ++ join sep (y :: rest))%string.
  rewrite !occurrences_app, Hx, Hsep, IH. reflexivity.
Qed.

Lemma existsb_eqb_In (x : string) (xs : list string) :
  existsb (String.eqb x) xs = true <-> In x xs.
Proof.
  rewrite existsb_exists. split.
  - intros (y & Hy & E). apply String.eqb_eq in E. now subst.
  - intro H. exists x. split; [exact H|apply String.eqb_refl].
Qed.

(** Within the string, [substring] takes the code units from [i] up to
    [j]. *)
Lemma substring_in_range (s : string) (i j : nat) :
  (i <= j <= String.length s)%nat ->
  JS.substring s (Z.of_nat i) (Z.of_nat j) = String.substring i (j - i) s.
Proof.
  intro H. unfold JS.substring.
  rewrite (Z.max_l (Z.of_nat i) 0), (Z.max_l (Z.of_nat j) 0) by lia.
  rewrite (Z.min_l (Z.of_nat i)), (Z.min_l (Z.of_nat j)) by lia.
  rewrite Z.min_l, Z.max_r by lia.
  f_equal; lia.
Qed.

(** What [parseDataUrl] reads in a URL made of the scheme, a header without
    comma, the comma and the payload. *)
Lemma parseDataUrl_parts (header payload : string) :
  occurrences "," header = O ->
  parseDataUrl ("data:" ++ header ++ "," ++ payload)
  = Ok {| mime := match JS.at_ (JS.split header ";") 0 with
                  | Some (String c r) => String c r
                  | _ => "text/plain"
                  end;
          isBase64 := existsb (String.eqb "base64") (JS.split header ";");
          payload := payload |}.
Proof.
  intro H. unfold parseDataUrl.
  set (url := ("data:" ++ header ++ "," ++ payload)%string).
  assert (S : JS.startsWith url "data:" = true).
  { apply prefix_spec. now eexists. }
  assert (L : String.length url = (5 + String.length header + 1 + String.length payload)%nat).
  { unfold url. rewrite !length_app. cbn [String.length]. lia. }
  assert (I : JS.indexOf url "," = Z.of_nat (5 + String.length header)).
  { unfold JS.indexOf.
    replace url with (("data:" ++ header) ++ String "," payload)%string by reflexivity.
    rewrite index_first.
    - rewrite length_app. reflexivity.
    - rewrite occurrences_app, H. reflexivity. }
  rewrite S, I. cbn [negb].
  destruct (Z.eqb_spec (Z.of_nat (5 + String.length header)) (-1)); [lia|].
  assert (Hh : JS.substring url 5 (Z.of_nat (5 + String.length header)) = header).
  { change 5 with (Z.of_nat 5). rewrite substring_in_range by lia.
    replace (5 + String.length header - 5)%nat with (String.length header) by lia.
    unfold url.
    change 5%nat with (String.length "data:") at 1.
    rewrite substring_skip. apply substring_0_app. }
  assert (Hp : JS.substringFrom url (Z.of_nat (5 + String.length header) + 1) = payload).
  { unfold JS.substringFrom.
    replace (Z.of_nat (5 + String.length header) + 1)
      with (Z.of_nat (5 + String.length header + 1)) by lia.
    rewrite substring_in_range by lia. rewrite L.
    replace (5 + String.length header + 1 + String.length payload
             - (5 + String.length header + 1))%nat
      with (String.length payload) by lia.
    replace url with (("data:" ++ header ++ ",") ++ payload)%string.
    - replace (5 + String.length header + 1)%nat
        with (String.length ("data:" ++ header ++ ",")).
      + rewrite substring_skip. apply substring_0_all.
      + rewrite !length_app. cbn [String.length]. lia.
    - unfold url. now rewrite <- !append_assoc. }
  rewrite Hh, Hp. reflexivity.
Qed.

(** C4, as the code has it.  In a data URL whose header is made of the
    segments [segs] (none with a semicolon or a comma), the media type is
    the first segment, or "text/plain" when that is empty; the payload is
    what follows the first comma; and the base64 flag is set if and only if
    "base64" is one of the segments, the first one included. *)
Theorem base64_flag_from_any_segment (segs : list string) (data : string) :
  segs <> [] ->
  Forall (fun seg => occurrences ";" seg = O /\ occurrences "," seg = O) segs ->
  exists parts,
    parseDataUrl ("data:" ++ join ";" segs ++ "," ++ data) = Ok parts
    /\ mime parts = match hd EmptyString segs with
                    | EmptyString => "text/plain"
                    | m => m
                    end
    /\ payload parts = data
    /\ (isBase64 parts = true <-> In "base64" segs).
Proof.
  intros Hne Hall.
  assert (Hsemi : Forall (fun seg => occurrences ";" seg = O) segs).
  { eapply Forall_impl; [|exact Hall]. now intros seg [? ?]. }
  assert (Hcomma : Forall (fun seg => occurrences "," seg = O) segs).
  { eapply Forall_impl; [|exact Hall]. now intros seg [? ?]. }
  rewrite parseDataUrl_parts by (now apply occurrences_join).
  rewrite (split_join ";" segs Hne Hsemi).
  eexists. split; [reflexivity|]. cbn [mime payload isBase64].
  split; [|split; [reflexivity|apply existsb_eqb_In]].
  destruct segs as [|[|c r] rest]; [now contradiction Hne| |]; reflexivity.
Qed.

Lemma base64_flag_witness :
  exists parts,
    parseDataUrl "data:text/csv;base64,QSxC" = Ok parts
    /\ mime parts = "text/csv"
    /\ payload parts = "QSxC"
    /\ (isBase64 parts = true <-> In "base64" ["text/csv"; "base64"]).
Proof.
  apply (base64_flag_from_any_segment ["text/csv"; "base64"] "QSxC").
  - discriminate.
  - repeat constructor.
Defined.

(** C4, as stated, fails on a header whose only segment is "base64": that
    segment is the media type, and the flag is set all the same. *)
Lemma lone_base64_counterexample :
  parseDataUrl "data:base64,QSxC"
  = Ok {| mime := "base64"; isBase64 := true; payload := "QSxC" |}.
Proof. reflexivity. Qed.

(** ** Blank input *)

Lemma trimStart_head (s : string) (c : ascii) (r : string) :
  JS.trimStart s = String c r -> JS.isWhiteSpace c = false.
Proof.
  induction s as [|x s IH]; cbn [JS.trimStart]; [discriminate|].
  destruct (JS.isWhiteSpace x) eqn:E; [exact IH|].
  intros [= <- _]. exact E.
Qed.

Lemma trimStart_empty (s : string) :
  JS.trimStart s = EmptyString <-> AllChars White s.
Proof.
  unfold White. induction s as [|x s IH]; cbn [JS.trimStart AllChars]; [tauto|].
  destruct (JS.isWhiteSpace x).
  - rewrite IH. tauto.
  - split; [discriminate|]. intros [H _]. discriminate.
Qed.

Lemma trimEnd_empty_head (c : ascii) (r : string) :
  JS.trimEnd (String c r) = EmptyString -> JS.isWhiteSpace c = true.
Proof.
  cbn [JS.trimEnd]. destruct (JS.trimEnd r); [|discriminate].
  destruct (JS.isWhiteSpace c); [reflexivity|discriminate].
Qed.

(** A string is trimmed to nothing exactly when it is made of white space. *)
Lemma trim_empty_iff (s : string) :
  JS.trim s = EmptyString <-> AllChars White s.
Proof.
  unfold JS.trim. split.
  - intro H. apply trimStart_empty.
    destruct (JS.trimStart s) as [|c r] eqn:E; [reflexivity|].
    apply trimEnd_empty_head in H. apply trimStart_head in E. congruence.
  - intro H. apply trimStart_empty in H. now rewrite H.
Qed.

Lemma AllChars_app (P : ascii -> Prop) (a b : string) :
  AllChars P a -> AllChars P b -> AllChars P (a ++ b).
Proof. induction a as [|c a IH]; cbn; [auto|]. intros [? ?] ?. auto. Qed.

Lemma replaceAll_AllChars (P : ascii -> Prop) (pat rep : string) (skip : nat) (s : string) :
  AllChars P rep -> AllChars P s -> AllChars P (JS.replaceAll_aux pat rep skip s).
Proof.
  intro Hrep. revert skip.
  induction s as [|c s IH]; intros skip H; [exact I|].
  destruct H as [Hc Hs]. cbn [JS.replaceAll_aux].
  destruct skip as [|k]; [|now apply IH].
  destruct (String.prefix pat (String c s)).
  - apply AllChars_app; [exact Hrep|now apply IH].
  - split; [exact Hc|now apply IH].
Qed.

Lemma split_AllChars (P : ascii -> Prop) (sep : string) (skip : nat) (s : string) :
  AllChars P s -> Forall (AllChars P) (JS.split_aux sep skip s).
Proof.
  revert skip.
  induction s as [|c s IH]; intros skip H; [repeat constructor|].
  destruct H as [Hc Hs]. cbn [JS.split_aux].
  destruct skip as [|k]; [|now apply IH].
  destruct (String.prefix sep (String c s)).
  - constructor; [exact I|now apply IH].
  - specialize (IH O Hs). destruct (JS.split_aux sep 0 s) as [|w ws].
    + repeat constructor. exact Hc.
    + inversion IH; subst. constructor; [now split|assumption].
Qed.

(** A text made of white space has no line that is kept. *)
Lemma csvLines_blank (text : string) :
  AllChars White text -> csvLines text = [].
Proof.
  intro H. unfold csvLines, JS.replaceAll, JS.split.
  match goal with
  | |- filter _ (JS.split_aux _ _ ?t) = _ =>
      assert (F : Forall (AllChars White) (JS.split_aux LF 0 t))
  end.
  { apply split_AllChars.
    apply replaceAll_AllChars; [now split|].
    apply replaceAll_AllChars; [now split|exact H]. }
  induction F as [|line lines Hl _ IH]; [reflexivity|].
  cbn [filter]. apply trim_empty_iff in Hl. rewrite Hl. exact IH.
Qed.

(** C1, as the code has it.  For an empty text, or one of white space
    only, parsing gives the table with an empty list of headers and no
    rows; no sales column is found in it, so the run raises the
    no-sales-column error before any sum is made, and the element shows
    the error text in the error state. *)
Theorem blank_input_has_no_sales_column (text : string) :
  JS.trim text = EmptyString ->
  parseCsv text = Ok emptyTable
  /\ totalSales text = Throw NoSalesColumn
  /\ forall numberToString el,
       render el (salesText numberToString text)
       = {| textContent := "Error loading data";
            classList := classAdd "error"
                           (classRemove ["loading"; "success"] (classList el)) |}.
Proof.
  intro H. apply trim_empty_iff, csvLines_blank, parseCsv_no_lines in H.
  assert (T : totalSales text = Throw NoSalesColumn).
  { unfold totalSales. rewrite H. reflexivity. }
  split; [exact H|]. split; [exact T|].
  intros numberToString el. unfold salesText. rewrite T. reflexivity.
Qed.

Lemma blank_input_witness :
  parseCsv (" " ++ CRLF ++ TAB ++ CR ++ LF) = Ok emptyTable
  /\ totalSales (" " ++ CRLF ++ TAB ++ CR ++ LF) = Throw NoSalesColumn.
Proof.
  destruct (blank_input_has_no_sales_column (" " ++ CRLF ++ TAB ++ CR ++ LF))
    as (H1 & H2 & _); [reflexivity|].
  split; [exact H1|exact H2].
Defined.

(** C1, as stated, fails on the empty text: the aggregation does not
    return 0, the run raises the no-sales-column error. *)
Lemma empty_input_counterexample :
  parseCsv EmptyString = Ok emptyTable
  /\ totalSales EmptyString = Throw NoSalesColumn
  /\ totalSales EmptyString <> Ok Num.zero.
Proof. repeat split; discriminate. Qed.

(** * Further properties of the script *)

(** ** Data URLs *)

Lemma occurrences_0_iff (d : ascii) (s : string) :
  occurrences d s = O <-> AllChars (fun c => c <> d) s.
Proof.
  induction s as [|c s IH]; cbn [occurrences AllChars]; [tauto|].
  destruct (Ascii.eqb_spec c d) as [->|N].
  - split; [discriminate|]. intros [H _]. now contradiction H.
  - rewrite IH. tauto.
Qed.

Lemma index_none_iff (d : ascii) (s : string) :
  String.index 0 (String d EmptyString) s = None <-> occurrences d s = O.
Proof.
  induction s as [|c s IH]; [cbn; tauto|].
  cbn [String.index occurrences]. rewrite prefix_single.
  destruct (Ascii.eqb c d); [split; discriminate|].
  rewrite <- IH. destruct (String.index 0 (String d EmptyString) s);
    split; try discriminate; reflexivity.
Qed.

(** A code unit that occurs has a first occurrence. *)
Lemma first_occurrence (d : ascii) (s : string) :
  occurrences d s <> O ->
  exists a b, s = (a ++ String d b)%string /\ occurrences d a = O.
Proof.
  induction s as [|c s IH]; intro H; [now contradiction H|].
  cbn [occurrences] in H. destruct (Ascii.eqb_spec c d) as [->|N].
  - exists EmptyString, s. split; reflexivity.
  - destruct (IH H) as (a & b & -> & Ha). exists (String c a), b.
    split; [reflexivity|]. cbn [occurrences].
    destruct (Ascii.eqb_spec c d); [contradiction|exact Ha].
Qed.

Lemma startsWith_scheme (url : string) :
  JS.startsWith url "data:" = true <-> exists rest, url = ("data:" ++ rest)%string.
Proof. apply prefix_spec. Qed.

(** X1. [parseDataUrl] fails in two ways only: with the invalid-URL error
    exactly when the text does not begin with the scheme, and with the
    invalid-format error exactly when it does and has no comma. *)
Theorem parseDataUrl_failures (url : string) :
  (parseDataUrl url = Throw InvalidDataUrl
   <-> ~ exists rest, url = ("data:" ++ rest)%string)
  /\ (parseDataUrl url = Throw InvalidDataUrlFormat
      <-> (exists rest, url = ("data:" ++ rest)%string) /\ occurrences "," url = O)
  /\ (forall e, parseDataUrl url = Throw e ->
                e = InvalidDataUrl \/ e = InvalidDataUrlFormat).
Proof.
  rewrite <- startsWith_scheme, <- index_none_iff.
  unfold parseDataUrl, JS.indexOf.
  destruct (JS.startsWith url "data:"); cbn [negb].
  - destruct (String.index 0 "," url) as [n|].
    + destruct (Z.eqb_spec (Z.of_nat n) (-1)); [lia|].
      repeat split; try discriminate; try tauto.
      intros [_ H]. discriminate.
    + cbn. repeat split; try discriminate; try tauto.
      intros e [= <-]. now right.
  - repeat split; try discriminate; try tauto.
    + intros [H _]. discriminate.
    + intros e [= <-]. now left.
Qed.

Lemma parseDataUrl_failures_witness :
  InvalidDataUrl = InvalidDataUrl \/ InvalidDataUrl = InvalidDataUrlFormat.
Proof.
  destruct (parseDataUrl_failures "http://example.org/data.csv") as (_ & _ & H).
  apply H. reflexivity.
Defined.

(** X2. A URL that [parseDataUrl] accepts is the scheme, a header without
    comma, a comma and the payload returned: the payload is everything
    after the first comma, commas included. *)
Theorem parseDataUrl_rebuilds_url (url : string) (parts : DataUrl) :
  parseDataUrl url = Ok parts ->
  exists header,
    url = ("data:" ++ header ++ "," ++ payload parts)%string
    /\ occurrences "," header = O.
Proof.
  intro H.
  assert (S : JS.startsWith url "data:" = true).
  { unfold parseDataUrl in H. destruct (JS.startsWith url "data:"); [reflexivity|discriminate]. }
  apply startsWith_scheme in S as [rest ->].
  assert (C : occurrences "," rest <> O).
  { intro C. unfold parseDataUrl, JS.indexOf in H.
    assert (N : String.index 0 "," ("data:" ++ rest) = None).
    { apply index_none_iff. rewrite occurrences_app, C. reflexivity. }
    rewrite N in H. destruct (negb _); discriminate. }
  destruct (first_occurrence _ _ C) as (header & data & -> & Hh).
  change (String "," data) with ("," ++ data)%string in H |- *.
  rewrite (parseDataUrl_parts _ _ Hh) in H. injection H as <-.
  exists header. split; [reflexivity|exact Hh].
Qed.

Lemma parseDataUrl_rebuilds_witness :
  exists header,
    "data:text/csv,a,b" = ("data:" ++ header ++ "," ++ "a,b")%string
    /\ occurrences "," header = O.
Proof.
  apply (parseDataUrl_rebuilds_url "data:text/csv,a,b"
           {| mime := "text/csv"; isBase64 := false; payload := "a,b" |}).
  reflexivity.
Defined.

(** No segment of a split text holds the separator. *)
Lemma split_pieces_no_separator (d : ascii) (s : string) :
  Forall (fun w => occurrences d w = O) (JS.split s (String d EmptyString)).
Proof.
  induction s as [|c s IH]; [repeat constructor|].
  rewrite split_single_cons. destruct (Ascii.eqb c d) eqn:E.
  - constructor; [reflexivity|exact IH].
  - destruct (JS.split s (String d EmptyString)) as [|w ws].
    + repeat constructor. cbn. now rewrite E.
    + inversion IH; subst. constructor; [|assumption].
      cbn [occurrences]. now rewrite E.
Qed.

Lemma split_not_nil (sep : string) (skip : nat) (s : string) :
  JS.split_aux sep skip s <> [].
Proof.
  revert skip. induction s as [|c s IH]; intro skip; [discriminate|].
  cbn [JS.split_aux]. destruct skip as [|k]; [|apply IH].
  destruct (String.prefix sep (String c s)); [discriminate|].
  destruct (JS.split_aux sep 0 s); discriminate.
Qed.

(** X3. The media type that [parseDataUrl] returns is never empty, and has
    neither semicolon nor comma in it. *)
Theorem parseDataUrl_mime_well_formed (url : string) (parts : DataUrl) :
  parseDataUrl url = Ok parts ->
  mime parts <> EmptyString
  /\ occurrences ";" (mime parts) = O
  /\ occurrences "," (mime parts) = O.
Proof.
  intro H.
  assert (S : JS.startsWith url "data:" = true).
  { unfold parseDataUrl in H. destruct (JS.startsWith url "data:"); [reflexivity|discriminate]. }
  apply startsWith_scheme in S as [rest ->].
  assert (C : occurrences "," rest <> O).
  { intro C. unfold parseDataUrl, JS.indexOf in H.
    assert (N : String.index 0 "," ("data:" ++ rest) = None).
    { apply index_none_iff. rewrite occurrences_app, C. reflexivity. }
    rewrite N in H. destruct (negb _); discriminate. }
  destruct (first_occurrence _ _ C) as (header & data & -> & Hh).
  change (String "," data) with ("," ++ data)%string in H.
  rewrite (parseDataUrl_parts _ _ Hh) in H. injection H as <-.
  cbn [mime].
  pose proof (split_pieces_no_separator ";" header) as Hsemi.
  assert (Hcomma : Forall (AllChars (fun c => c <> ","%char)) (JS.split header ";")).
  { apply split_AllChars. now apply occurrences_0_iff. }
  destruct (JS.split header ";") as [|seg segs]; [repeat split; discriminate|].
  change (JS.at_ (seg :: segs) 0) with (Some seg).
  inversion Hsemi; subst. inversion Hcomma; subst.
  destruct seg as [|c r]; [repeat split; discriminate|].
  split; [discriminate|]. split; [assumption|now apply occurrences_0_iff].
Qed.

Lemma parseDataUrl_mime_witness :
  ("text/plain" <> EmptyString)
  /\ occurrences ";" "text/plain" = O /\ occurrences "," "text/plain" = O.
Proof.
  apply (parseDataUrl_mime_well_formed "data:;base64,QSxC"
           {| mime := "text/plain"; isBase64 := true; payload := "QSxC" |}).
  reflexivity.
Defined.

Lemma checkMime_accepts (m : string) :
  Contains m "csv" \/ Contains m "text" -> checkMime m = Ok tt.
Proof.
  intro H. unfold checkMime.
  destruct H as [H|H]; apply includes_Contains in H; rewrite H;
    [reflexivity|]. now rewrite andb_false_r.
Qed.

(** X4. How an inline source is decoded.  With a header of segments
    [segs], the media type is the first segment or "text/plain"; when
    neither "csv" nor "text" occurs in it the source is refused before its
    payload is looked at; otherwise the payload is base64-decoded when
    "base64" is one of the segments, and percent-decoded when it is not. *)
Theorem decodeDataUrl_dispatch
  (atobText decodeURIComponent : string -> option string)
  (segs : list string) (data : string) :
  segs <> [] ->
  Forall (fun seg => occurrences ";" seg = O /\ occurrences "," seg = O) segs ->
  let m := match hd EmptyString segs with
           | EmptyString => "text/plain"
           | m => m
           end in
  let run := decodeDataUrl atobText decodeURIComponent
               ("data:" ++ join ";" segs ++ "," ++ data) in
  (~ Contains m "csv" /\ ~ Contains m "text" -> run = Throw InvalidMimeType)
  /\ (Contains m "csv" \/ Contains m "text" -> In "base64" segs ->
      run = orThrow Base64DecodeFailed (atobText data))
  /\ (Contains m "csv" \/ Contains m "text" -> ~ In "base64" segs ->
      run = orThrow URIError (decodeURIComponent data)).
Proof.
  intros Hne Hall m run.
  assert (Hsemi : Forall (fun seg => occurrences ";" seg = O) segs).
  { eapply Forall_impl; [|exact Hall]. now intros seg [? ?]. }
  assert (Hcomma : Forall (fun seg => occurrences "," seg = O) segs).
  { eapply Forall_impl; [|exact Hall]. now intros seg [? ?]. }
  assert (R : run = decodePayload atobText decodeURIComponent
                      {| mime := m;
                         isBase64 := existsb (String.eqb "base64") segs;
                         payload := data |}).
  { unfold run, decodeDataUrl.
    rewrite parseDataUrl_parts by (now apply occurrences_join).
    rewrite (split_join ";" segs Hne Hsemi). cbn [bind]. f_equal. f_equal.
    unfold m. destruct segs as [|[|c r] rest]; [now contradiction Hne| |]; reflexivity. }
  rewrite R. unfold decodePayload. cbn [mime isBase64 payload].
  split; [|split].
  - intro H. apply checkMime_throws_iff in H. now rewrite H.
  - intros H B. rewrite (checkMime_accepts _ H). cbn [bind].
    apply existsb_eqb_In in B. now rewrite B.
  - intros H B. rewrite (checkMime_accepts _ H). cbn [bind].
    destruct (existsb (String.eqb "base64") segs) eqn:E; [|reflexivity].
    apply existsb_eqb_In in E. contradiction.
Qed.

Lemma decodeDataUrl_dispatch_witness :
  decodeDataUrl (fun _ => Some "decoded") (fun _ => None) "data:text/csv;base64,QSxC"
  = Ok "decoded".
Proof.
  destruct (decodeDataUrl_dispatch (fun _ => Some "decoded") (fun _ => None)
              ["text/csv"; "base64"] "QSxC") as (_ & H & _).
  - discriminate.
  - repeat constructor.
  - apply H.
    + left. now exists "text/", EmptyString.
    + right. now left.
Defined.

(** X5. A data URL without media type is taken as "text/plain" and so is
    never refused for its media type: its payload is percent-decoded, or
    base64-decoded under the header ";base64". *)
Theorem decodeDataUrl_default_media_type
  (atobText decodeURIComponent : string -> option string) (data : string) :
  decodeDataUrl atobText decodeURIComponent ("data:," ++ data)
  = orThrow URIError (decodeURIComponent data)
  /\ decodeDataUrl atobText decodeURIComponent ("data:;base64," ++ data)
     = orThrow Base64DecodeFailed (atobText data).
Proof.
  unfold decodeDataUrl. split.
  - change ("data:," ++ data)%string
      with ("data:" ++ EmptyString ++ "," ++ data)%string.
    rewrite parseDataUrl_parts by reflexivity. reflexivity.
  - change ("data:;base64," ++ data)%string
      with ("data:" ++ ";base64" ++ "," ++ data)%string.
    rewrite parseDataUrl_parts by reflexivity. reflexivity.
Qed.

(** ** Lines and line endings *)

Lemma append_empty_r (s : string) : (s ++ EmptyString)%string = s.
Proof. induction s as [|c s IH]; cbn; [reflexivity|now rewrite IH]. Qed.

Lemma prefix_head_neq (p0 c : ascii) (pr s : string) :
  c <> p0 -> String.prefix (String p0 pr) (String c s) = false.
Proof.
  intro N. cbn [String.prefix]. destruct (ascii_dec p0 c); [congruence|reflexivity].
Qed.

(** A replacement passes over what does not hold the first code unit of
    the pattern. *)
Lemma replaceAll_skip_prefix (p0 : ascii) (pr rep a b : string) :
  occurrences p0 a = O ->
  JS.replaceAll_aux (String p0 pr) rep 0 (a ++ b)
  = (a ++ JS.replaceAll_aux (String p0 pr) rep 0 b)%string.
Proof.
  induction a as [|c a IH]; intro H; [reflexivity|].
  apply occurrences_cons_0 in H as [Hc Ha].
  change ((String c a ++ b)%string) with (String c (a ++ b)).
  cbn [JS.replaceAll_aux].
  rewrite prefix_head_neq by (now apply Ascii.eqb_neq).
  now rewrite (IH Ha).
Qed.

Lemma replaceAll_absent (p0 : ascii) (pr rep s : string) :
  occurrences p0 s = O -> JS.replaceAll s (String p0 pr) rep = s.
Proof.
  intro H. unfold JS.replaceAll.
  rewrite <- (append_empty_r s) at 1.
  rewrite (replaceAll_skip_prefix _ _ _ _ _ H). cbn [JS.replaceAll_aux].
  apply append_empty_r.
Qed.

Lemma replaceAll_CRLF_here (b : string) :
  JS.replaceAll_aux CRLF LF 0 (CRLF ++ b)
  = (LF ++ JS.replaceAll_aux CRLF LF 0 b)%string.
Proof.
  change ((CRLF ++ b)%string) with (String "013" (String "010" b)).
  cbn [JS.replaceAll_aux].
  replace (String.prefix CRLF (String "013" (String "010" b)))
    with true by (symmetry; apply prefix_spec; now exists b).
  reflexivity.
Qed.

Lemma replaceAll_CR_here (b : string) :
  JS.replaceAll_aux CR LF 0 (CR ++ b)
  = (LF ++ JS.replaceAll_aux CR LF 0 b)%string.
Proof.
  change ((CR ++ b)%string) with (String "013" b).
  cbn [JS.replaceAll_aux]. unfold CR at 1. rewrite prefix_single. reflexivity.
Qed.

(** Without a line feed there is no CRLF to replace. *)
Lemma replaceAll_CRLF_absent (s : string) :
  occurrences "010" s = O -> JS.replaceAll s CRLF LF = s.
Proof.
  unfold JS.replaceAll. induction s as [|c s IH]; intro H; [reflexivity|].
  apply occurrences_cons_0 in H as [Hc Hs].
  cbn [JS.replaceAll_aux].
  destruct (String.prefix CRLF (String c s)) eqn:E.
  - exfalso. apply prefix_spec in E as [b E]. cbn in E. injection E as _ ->.
    cbn in Hs. discriminate.
  - now rewrite (IH Hs).
Qed.

(** After the second replacement no carriage return is left. *)
Lemma replaceAll_CR_removes (s : string) :
  occurrences "013" (JS.replaceAll s CR LF) = O.
Proof.
  unfold JS.replaceAll. induction s as [|c s IH]; [reflexivity|].
  cbn [JS.replaceAll_aux]. unfold CR at 1. rewrite prefix_single.
  destruct (Ascii.eqb c "013") eqn:E.
  - cbn [String.length Nat.pred]. exact IH.
  - cbn [occurrences]. now rewrite E.
Qed.

Lemma join_cons2 (sep x y : string) (rest : list string) :
  join sep (x :: y :: rest) = (x ++ sep ++ join sep (y :: rest))%string.
Proof. reflexivity. Qed.

Lemma replaceAll_join_CRLF (ls : list string) :
  Forall NoBreak ls ->
  JS.replaceAll (join CRLF ls) CRLF LF = join LF ls.
Proof.
  unfold JS.replaceAll.
  induction 1 as [|x rest [Hx _] Hrest IH]; [reflexivity|].
  destruct rest as [|y rest].
  - cbn [join]. now apply replaceAll_absent.
  - rewrite !join_cons2. unfold CRLF at 1.
    rewrite (replaceAll_skip_prefix _ _ _ _ _ Hx).
    fold CRLF. rewrite replaceAll_CRLF_here, IH. reflexivity.
Qed.

Lemma replaceAll_join_CR (ls : list string) :
  Forall NoBreak ls ->
  JS.replaceAll (join CR ls) CR LF = join LF ls.
Proof.
  unfold JS.replaceAll.
  induction 1 as [|x rest [Hx _] Hrest IH]; [reflexivity|].
  destruct rest as [|y rest].
  - cbn [join]. now apply replaceAll_absent.
  - rewrite !join_cons2. unfold CR at 1.
    rewrite (replaceAll_skip_prefix _ _ _ _ _ Hx).
    fold CR. rewrite replaceAll_CR_here, IH. reflexivity.
Qed.

Lemma NoBreak_no_CR (ls : list string) :
  Forall NoBreak ls -> Forall (fun l => occurrences "013" l = O) ls.
Proof. intro H. eapply Forall_impl; [|exact H]. now intros l [? ?]. Qed.

Lemma NoBreak_no_LF (ls : list string) :
  Forall NoBreak ls -> Forall (fun l => occurrences "010" l = O) ls.
Proof. intro H. eapply Forall_impl; [|exact H]. now intros l [? ?]. Qed.

(** The lines of a text whose lines are joined by line feeds. *)
Lemma csvLines_join_LF (ls : list string) :
  Forall NoBreak ls -> csvLines (join LF ls) = filter notBlank ls.
Proof.
  intro H. unfold csvLines.
  assert (C : occurrences "013" (join LF ls) = O).
  { apply occurrences_join; [reflexivity|now apply NoBreak_no_CR]. }
  unfold CRLF at 1. rewrite (replaceAll_absent _ _ _ _ C).
  unfold CR at 1. rewrite (replaceAll_absent _ _ _ _ C).
  destruct ls as [|x rest]; [reflexivity|].
  change LF with (String "010" EmptyString).
  rewrite split_join; [reflexivity|discriminate|now apply NoBreak_no_LF].
Qed.

Lemma normalise_join_CRLF (ls : list string) :
  Forall NoBreak ls ->
  JS.replaceAll (JS.replaceAll (join CRLF ls) CRLF LF) CR LF
  = JS.replaceAll (JS.replaceAll (join LF ls) CRLF LF) CR LF.
Proof.
  intro H. rewrite (replaceAll_join_CRLF _ H).
  assert (C : occurrences "013" (join LF ls) = O).
  { apply occurrences_join; [reflexivity|now apply NoBreak_no_CR]. }
  unfold CRLF. now rewrite (replaceAll_absent _ _ _ _ C).
Qed.

Lemma normalise_join_CR (ls : list string) :
  Forall NoBreak ls ->
  JS.replaceAll (JS.replaceAll (join CR ls) CRLF LF) CR LF
  = JS.replaceAll (JS.replaceAll (join LF ls) CRLF LF) CR LF.
Proof.
  intro H.
  assert (L : occurrences "010" (join CR ls) = O).
  { apply occurrences_join; [reflexivity|now apply NoBreak_no_LF]. }
  rewrite (replaceAll_CRLF_absent _ L), (replaceAll_join_CR _ H).
  assert (C : occurrences "013" (join LF ls) = O).
  { apply occurrences_join; [reflexivity|now apply NoBreak_no_CR]. }
  unfold CRLF at 1. rewrite (replaceAll_absent _ _ _ _ C).
  unfold CR at 1. now rewrite (replaceAll_absent _ _ _ _ C).
Qed.

Lemma csvLines_join_CRLF (ls : list string) :
  Forall NoBreak ls -> csvLines (join CRLF ls) = csvLines (join LF ls).
Proof. intro H. unfold csvLines. now rewrite (normalise_join_CRLF _ H). Qed.

Lemma csvLines_join_CR (ls : list string) :
  Forall NoBreak ls -> csvLines (join CR ls) = csvLines (join LF ls).
Proof. intro H. unfold csvLines. now rewrite (normalise_join_CR _ H). Qed.

(** X6. Whatever the line-ending convention (LF, CRLF or CR alone), the
    lines that [parseCsv] works on are the lines of the text that are not
    blank, in their order: blank lines, and so a final line break, change
    nothing. *)
Theorem csvLines_of_joined_lines (ls : list string) :
  Forall NoBreak ls ->
  csvLines (join LF ls) = filter notBlank ls
  /\ csvLines (join CRLF ls) = filter notBlank ls
  /\ csvLines (join CR ls) = filter notBlank ls.
Proof.
  intro H. rewrite (csvLines_join_CRLF _ H), (csvLines_join_CR _ H).
  pose proof (csvLines_join_LF _ H). auto.
Qed.

Lemma csvLines_of_joined_lines_witness :
  csvLines (join CRLF ["a,b"; EmptyString; "1,2"; EmptyString])
  = ["a,b"; "1,2"].
Proof.
  destruct (csvLines_of_joined_lines ["a,b"; EmptyString; "1,2"; EmptyString])
    as (_ & H & _).
  - repeat constructor.
  - exact H.
Defined.

Lemma parseCsv_same_lines (a b : string) :
  csvLines a = csvLines b -> parseCsv a = parseCsv b.
Proof. intro H. unfold parseCsv. now rewrite H. Qed.

(** X7. The table read and the total do not depend on the line-ending
    convention of the text. *)
Theorem line_endings_do_not_matter (ls : list string) :
  Forall NoBreak ls ->
  parseCsv (join CRLF ls) = parseCsv (join LF ls)
  /\ parseCsv (join CR ls) = parseCsv (join LF ls)
  /\ totalSales (join CRLF ls) = totalSales (join LF ls)
  /\ totalSales (join CR ls) = totalSales (join LF ls).
Proof.
  intro H.
  pose proof (parseCsv_same_lines _ _ (csvLines_join_CRLF _ H)) as H1.
  pose proof (parseCsv_same_lines _ _ (csvLines_join_CR _ H)) as H2.
  unfold totalSales. rewrite H1, H2. auto.
Qed.

Lemma line_endings_witness :
  parseCsv (join CRLF ["Item;Sales"; "pen;2"]) = parseCsv (join LF ["Item;Sales"; "pen;2"]).
Proof.
  destruct (line_endings_do_not_matter ["Item;Sales"; "pen;2"]) as (H & _).
  - repeat constructor.
  - exact H.
Defined.

Lemma filter_notBlank_all (ls : list string) :
  Forall (fun l => JS.trim l <> EmptyString) ls -> filter notBlank ls = ls.
Proof.
  induction 1 as [|l ls Hl _ IH]; [reflexivity|].
  cbn [filter]. unfold notBlank at 1.
  apply String.eqb_neq in Hl. rewrite Hl. cbn [negb]. now rewrite IH.
Qed.

Lemma csvLines_kept (text : string) : Forall KeptLine (csvLines text).
Proof.
  unfold csvLines.
  set (n := JS.replaceAll (JS.replaceAll text CRLF LF) CR LF).
  assert (C : Forall (AllChars (fun c => c <> "013"%char)) (JS.split n LF)).
  { apply split_AllChars. apply occurrences_0_iff. apply replaceAll_CR_removes. }
  pose proof (split_pieces_no_separator "010" n) as L.
  change (String "010" EmptyString) with LF in L.
  rewrite Forall_forall in *. intros line Hin.
  apply filter_In in Hin as [Hin Hnb].
  split; [apply occurrences_0_iff; now apply C|].
  split; [now apply L|].
  apply negb_true_iff, String.eqb_neq in Hnb. exact Hnb.
Qed.

(** X8. Every line that [parseCsv] works on is free of carriage return and
    line feed and is not blank; and these lines are a normal form: written
    out one per line and read again, they are the same lines. *)
Theorem csvLines_are_kept_lines (text : string) :
  Forall KeptLine (csvLines text)
  /\ csvLines (join LF (csvLines text)) = csvLines text.
Proof.
  pose proof (csvLines_kept text) as K.
  split; [exact K|].
  rewrite csvLines_join_LF.
  - apply filter_notBlank_all. eapply Forall_impl; [|exact K].
    now intros l (_ & _ & H).
  - eapply Forall_impl; [|exact K]. intros l (H1 & H2 & _). now split.
Qed.

(** ** Rows and fields *)

Lemma detectDelimiter_cases (line0 : string) :
  let commas := occurrences "," line0 in
  let semicolons := occurrences ";" line0 in
  let tabs := occurrences "009" line0 in
  (detectDelimiter line0 = ","
   /\ (semicolons <= commas)%nat /\ (tabs <= commas)%nat)
  \/ (detectDelimiter line0 = ";"
      /\ (commas < semicolons)%nat /\ (tabs <= semicolons)%nat)
  \/ (detectDelimiter line0 = TAB
      /\ (commas < tabs)%nat /\ (semicolons < tabs)%nat).
Proof.
  cbn zeta. rewrite (detectDelimiter_counts line0).
  destruct (Nat.ltb_spec (occurrences "," line0) (occurrences ";" line0)),
    (Nat.ltb_spec (occurrences "," line0) (occurrences "009" line0)),
    (Nat.ltb_spec (occurrences ";" line0) (occurrences "009" line0));
    cbn [orb]; try (left; split; [reflexivity|lia]);
    try (right; left; split; [reflexivity|lia]);
    try (right; right; split; [reflexivity|lia]); exfalso; lia.
Qed.

(** X9. The delimiter chosen is one of comma, semicolon and tab, and none
    of the three occurs more often in the first line than the one chosen. *)
Theorem detectDelimiter_has_highest_count (line0 : string) :
  exists d,
    detectDelimiter line0 = String d EmptyString
    /\ In (String d EmptyString) delimiters
    /\ forall d', In (String d' EmptyString) delimiters ->
                  (occurrences d' line0 <= occurrences d line0)%nat.
Proof.
  destruct (detectDelimiter_cases line0) as [(E & H1 & H2)|[(E & H1 & H2)|(E & H1 & H2)]];
    [exists ","%char|exists ";"%char|exists "009"%char];
    (split; [exact E|]); (split; [cbn; tauto|]);
    intros d' [H|[H|[H|[]]]]; injection H as <-; lia.
Qed.

Lemma split_length (d : ascii) (s : string) :
  List.length (JS.split s (String d EmptyString)) = S (occurrences d s).
Proof.
  induction s as [|c s IH]; [reflexivity|].
  rewrite split_single_cons. cbn [occurrences].
  destruct (Ascii.eqb c d).
  - cbn [List.length]. now rewrite IH.
  - destruct (JS.split s (String d EmptyString)) as [|w ws]; [discriminate|].
    exact IH.
Qed.

Lemma substring_AllChars (P : ascii -> Prop) (n m : nat) (s : string) :
  AllChars P s -> AllChars P (String.substring n m s).
Proof.
  revert n m. induction s as [|c s IH]; intros n m H.
  - destruct n, m; exact I.
  - destruct H as [Hc Hs]. destruct n as [|n].
    + destruct m as [|m]; [exact I|]. cbn [String.substring].
      split; [exact Hc|now apply IH].
    + cbn [String.substring]. now apply IH.
Qed.

(** Unquoting brings in no code unit but the quote. *)
Lemma unquoteField_AllChars (P : ascii -> Prop) (field : string) :
  P "034"%char -> AllChars P field -> AllChars P (unquoteField field).
Proof.
  intros Hq H. unfold unquoteField.
  destruct (JS.startsWith field DQUOTE && JS.endsWith field DQUOTE); [|exact H].
  unfold JS.replaceAll. apply replaceAll_AllChars; [now split|].
  unfold JS.substring. now apply substring_AllChars.
Qed.

Lemma parseLine_fields (d : ascii) (line : string) :
  d <> "034"%char ->
  List.length (parseLine (String d EmptyString) line) = S (occurrences d line)
  /\ Forall (fun field => occurrences d field = O)
            (parseLine (String d EmptyString) line).
Proof.
  intro Hd. unfold parseLine. split.
  - rewrite length_map. apply split_length.
  - rewrite Forall_map.
    eapply Forall_impl; [|apply (split_pieces_no_separator d line)].
    intros w Hw. apply occurrences_0_iff.
    apply unquoteField_AllChars; [congruence|now apply occurrences_0_iff].
Qed.

(** X10. Whatever the first line, a line is read as one field more than it
    has delimiters, so a row is never empty and rows of different lengths
    are kept as they are; and no field holds the delimiter. *)
Theorem parsed_fields_well_formed (line0 line : string) :
  exists d,
    detectDelimiter line0 = String d EmptyString
    /\ List.length (parseLine (detectDelimiter line0) line) = S (occurrences d line)
    /\ Forall (fun field => occurrences d field = O)
              (parseLine (detectDelimiter line0) line).
Proof.
  destruct (detectDelimiter_cases line0) as [(E & _)|[(E & _)|(E & _)]];
    [exists ","%char|exists ";"%char|exists "009"%char];
    rewrite E; (split; [reflexivity|]); apply parseLine_fields; discriminate.
Qed.

Lemma parseCsv_allRows (text l0 : string) (ls : list string) :
  csvLines text = l0 :: ls ->
  exists t, parseCsv text = Ok t
    /\ allRows t = map (parseLine (detectDelimiter l0)) (l0 :: ls).
Proof.
  intro E. rewrite (parseCsv_lines _ _ _ E). cbn [map].
  rewrite inferHeaders_cons. destruct (forallb _ _); eexists; split; reflexivity.
Qed.

(** X11. With one line kept or more, the header row (when there is one)
    followed by the data rows are the lines kept, each split and unquoted,
    in their order: no line is lost, doubled or moved. *)
Theorem rows_follow_lines (text l0 : string) (ls : list string) :
  csvLines text = l0 :: ls ->
  exists t,
    parseCsv text = Ok t
    /\ allRows t = map (parseLine (detectDelimiter l0)) (csvLines text)
    /\ List.length (allRows t) = List.length (csvLines text).
Proof.
  intro E. destruct (parseCsv_allRows _ _ _ E) as (t & H1 & H2).
  exists t. rewrite E, H2. split; [exact H1|]. split; [reflexivity|].
  now rewrite length_map.
Qed.

Lemma rows_follow_lines_witness :
  exists t,
    parseCsv ("a;b" ++ LF ++ LF ++ "1;2" ++ CR ++ "3") = Ok t
    /\ allRows t = map (parseLine (detectDelimiter "a;b"))
                       (csvLines ("a;b" ++ LF ++ LF ++ "1;2" ++ CR ++ "3"))
    /\ List.length (allRows t)
       = List.length (csvLines ("a;b" ++ LF ++ LF ++ "1;2" ++ CR ++ "3")).
Proof.
  apply (rows_follow_lines ("a;b" ++ LF ++ LF ++ "1;2" ++ CR ++ "3") "a;b" ["1;2"; "3"]).
  reflexivity.
Defined.

(** ** Quoted fields, written and read back *)

Lemma replaceAll_doubled_quote_here (b : string) :
  JS.replaceAll_aux (DQUOTE ++ DQUOTE) DQUOTE 0 (String "034" (String "034" b))
  = String "034" (JS.replaceAll_aux (DQUOTE ++ DQUOTE) DQUOTE 0 b).
Proof.
  cbn [JS.replaceAll_aux].
  replace (String.prefix (DQUOTE ++ DQUOTE) (String "034" (String "034" b)))
    with true by (symmetry; apply prefix_spec; now exists b).
  reflexivity.
Qed.

Lemma collapse_escape (s : string) : collapseQuotes (escapeQuotes s) = s.
Proof.
  unfold collapseQuotes, JS.replaceAll.
  induction s as [|c s IH]; [reflexivity|].
  cbn [escapeQuotes]. destruct (Ascii.eqb_spec c "034") as [->|N].
  - now rewrite replaceAll_doubled_quote_here, IH.
  - cbn [JS.replaceAll_aux].
    change (DQUOTE ++ DQUOTE)%string with (String "034" DQUOTE) in *.
    rewrite (prefix_head_neq _ _ _ _ N). now rewrite IH.
Qed.

Lemma unquote_quote (field : string) : unquoteField (quoteField field) = field.
Proof. unfold quoteField. rewrite unquoteField_wrapped. apply collapse_escape. Qed.

Lemma occurrences_escape (d : ascii) (s : string) :
  d <> "034"%char -> occurrences d (escapeQuotes s) = occurrences d s.
Proof.
  intro Hd. induction s as [|c s IH]; [reflexivity|].
  cbn [escapeQuotes]. destruct (Ascii.eqb_spec c "034") as [->|N].
  - cbn [occurrences].
    destruct (Ascii.eqb_spec "034"%char d) as [E|_]; [congruence|exact IH].
  - cbn [occurrences]. now rewrite IH.
Qed.

Lemma occurrences_quoteField (d : ascii) (field : string) :
  d <> "034"%char -> occurrences d (quoteField field) = occurrences d field.
Proof.
  intro Hd. unfold quoteField, DQUOTE. rewrite !occurrences_app.
  rewrite (occurrences_escape _ _ Hd). cbn [occurrences].
  destruct (Ascii.eqb_spec "034"%char d) as [E|_]; [congruence|lia].
Qed.

(** X12. A line written the usual way (every field between quotes, its
    quotes doubled, the fields separated by the delimiter) is read back as
    the fields written, as long as no field holds the delimiter. *)
Theorem quoted_line_round_trip (d : ascii) (fields : list string) :
  d <> "034"%char ->
  fields <> [] ->
  Forall (fun field => occurrences d field = O) fields ->
  parseLine (String d EmptyString)
    (join (String d EmptyString) (map quoteField fields))
  = fields.
Proof.
  intros Hd Hne Hall. unfold parseLine.
  rewrite split_join.
  - rewrite map_map. rewrite <- (map_id fields) at 2.
    apply map_ext. exact unquote_quote.
  - destruct fields; [now contradiction Hne|discriminate].
  - rewrite Forall_map. eapply Forall_impl; [|exact Hall].
    intros f Hf. now rewrite occurrences_quoteField.
Qed.

Lemma quoted_line_round_trip_witness :
  parseLine ","
    (join "," (map quoteField ["say " ++ DQUOTE ++ "hi" ++ DQUOTE; "2"; EmptyString]))
  = [("say " ++ DQUOTE ++ "hi" ++ DQUOTE)%string; "2"; EmptyString].
Proof.
  apply (quoted_line_round_trip ","
           [("say " ++ DQUOTE ++ "hi" ++ DQUOTE)%string; "2"; EmptyString]).
  - discriminate.
  - discriminate.
  - repeat constructor.
Defined.

Lemma escapeQuotes_none (s : string) :
  occurrences "034" s = O -> escapeQuotes s = s.
Proof.
  induction s as [|c s IH]; intro H; [reflexivity|].
  apply occurrences_cons_0 in H as [Hc Hs].
  cbn [escapeQuotes]. rewrite Hc. now rewrite (IH Hs).
Qed.

Lemma occurrences_app_0 (d : ascii) (a b : string) :
  occurrences d (a ++ b) = O -> occurrences d a = O /\ occurrences d b = O.
Proof. rewrite occurrences_app. lia. Qed.

(** X13. The split does not look at quotes: a quoted field that holds the
    delimiter is read as two fields, each keeping its quote. *)
Theorem delimiter_inside_quotes_still_splits (d : ascii) (a b : string) :
  d <> "034"%char ->
  occurrences d a = O -> occurrences d b = O ->
  occurrences "034" a = O -> occurrences "034" b = O ->
  parseLine (String d EmptyString) (quoteField (a ++ String d b))
  = [(DQUOTE ++ a)%string; (b ++ DQUOTE)%string].
Proof.
  intros Hd Ha Hb Qa Qb. unfold parseLine, quoteField.
  rewrite escapeQuotes_none.
  2:{ rewrite occurrences_app. cbn [occurrences].
      destruct (Ascii.eqb_spec d "034"); [contradiction|]. now rewrite Qa, Qb. }
  replace (DQUOTE ++ (a ++ String d b) ++ DQUOTE)%string
    with ((DQUOTE ++ a) ++ String d (b ++ DQUOTE))%string
    by (cbn; now rewrite append_assoc).
  rewrite split_at_separator, split_no_separator.
  - cbn [map]. f_equal; [|f_equal].
    + apply unquoteField_verbatim. intros inner E. cbn in E. injection E as E.
      rewrite E in Qa. apply occurrences_app_0 in Qa as [_ Qa]. discriminate.
    + apply unquoteField_verbatim. intros inner E.
      destruct b as [|c b]; cbn in E.
      * injection E as E. destruct inner; discriminate.
      * injection E as -> _. cbn in Qb. discriminate.
  - rewrite occurrences_app, Hb. cbn [occurrences DQUOTE].
    destruct (Ascii.eqb_spec "034"%char d); [congruence|reflexivity].
  - unfold DQUOTE. rewrite occurrences_app, Ha. cbn [occurrences].
    destruct (Ascii.eqb_spec "034"%char d); [congruence|reflexivity].
Qed.

Lemma delimiter_inside_quotes_witness :
  parseLine "," (quoteField "Smith, J")
  = [(DQUOTE ++ "Smith")%string; (" J" ++ DQUOTE)%string].
Proof.
  apply (delimiter_inside_quotes_still_splits "," "Smith" " J");
    (discriminate || reflexivity).
Defined.

(** ** The sales column *)

Lemma lowerChar_idempotent (c : ascii) :
  JS.lowerChar (JS.lowerChar c) = JS.lowerChar c.
Proof. destruct c as [[] [] [] [] [] [] [] []]; reflexivity. Qed.

Lemma toLowerCase_idempotent (s : string) :
  JS.toLowerCase (JS.toLowerCase s) = JS.toLowerCase s.
Proof.
  induction s as [|c s IH]; [reflexivity|].
  cbn [JS.toLowerCase]. now rewrite lowerChar_idempotent, IH.
Qed.

(** X14. A header names the sales exactly when "sale" occurs in its
    lowercased text (the test for "sales" adds nothing), and the test does
    not see the case of the letters. *)
Theorem sales_header_is_sale_substring (header : string) :
  (isSalesHeader header = true <-> Contains (JS.toLowerCase header) "sale")
  /\ isSalesHeader (JS.toLowerCase header) = isSalesHeader header.
Proof.
  split.
  - rewrite isSalesHeader_iff. unfold NamesSales. split; [|now right].
    intros [(a & b & H)|H]; [|exact H].
    exists a, (String "s" b). exact H.
  - unfold isSalesHeader. now rewrite toLowerCase_idempotent.
Qed.

Lemma no_match_in_headers (t : ParsedTable) (hs : list string) :
  headers t = Some hs ->
  (forall x, In x hs -> isSalesHeader x = false) ->
  NoHeaderMatch t.
Proof.
  intros Eh H j (hs' & h & Hs & Hj & Hm). rewrite Eh in Hs. injection Hs as <-.
  apply isSalesHeader_iff in Hm. apply nth_error_In in Hj.
  rewrite (H _ Hj) in Hm. discriminate.
Qed.

Lemma no_match_without_headers (t : ParsedTable) :
  headers t = None -> NoHeaderMatch t.
Proof. intros Eh j (hs & h & Hs & _). congruence. Qed.

(** How an index was selected: at a header that names the sales, or, when
    none does, at a column that is numeric in every row of a table that
    has rows. *)
Lemma findSalesColumn_cases (t : ParsedTable) (i : Z) :
  findSalesColumn t = Ok i ->
  exists n, i = Z.of_nat n
    /\ ((exists hs h, headers t = Some hs /\ nth_error hs n = Some h
                      /\ isSalesHeader h = true)
        \/ (NoHeaderMatch t /\ rows t <> [] /\ NumericColumn (rows t) n)).
Proof.
  intro H.
  assert (F : NoHeaderMatch t ->
              exists n, i = Z.of_nat n /\ rows t <> [] /\ NumericColumn (rows t) n).
  { intro Hno. unfold findSalesColumn in H. cbn zeta in H.
    assert (E : match headers t with
                | Some hs => JS.findIndex isSalesHeader hs
                | None => -1
                end = -1).
    { destruct (headers t) as [hs|] eqn:Eh; [|reflexivity].
      unfold JS.findIndex.
      destruct (findIndex_from_spec isSalesHeader hs 0)
        as [[H1 _]|(n & h & _ & H2 & H3 & _)]; [exact H1|].
      exfalso. apply (Hno n). exists hs, h.
      split; [exact Eh|]. split; [exact H2|now apply isSalesHeader_iff]. }
    rewrite E in H. cbn [Z.eqb Pos.eqb] in H.
    destruct (fallback_spec (rows t)) as [[H1 _]|(n & H1 & H2 & H3 & _)];
      cbn zeta in H1; rewrite H1 in H.
    - discriminate.
    - destruct (Z.eqb_spec (Z.of_nat n) (-1)); [lia|].
      injection H as <-. exists n. auto. }
  destruct (headers t) as [hs|] eqn:Eh.
  - destruct (findIndex_from_spec isSalesHeader hs 0)
      as [[H1 H2]|(n & h & H1 & H2 & H3 & _)].
    + pose proof (no_match_in_headers _ _ Eh H2) as Hno.
      destruct (F Hno) as (n & -> & Hr & Hn).
      exists n. split; [reflexivity|]. right. auto.
    + unfold findSalesColumn, JS.findIndex in H. rewrite Eh, H1 in H.
      cbn zeta in H. cbn [Z.add] in H.
      destruct (Z.of_nat n =? -1) eqn:En; [apply Z.eqb_eq in En; lia|].
      rewrite En in H. injection H as <-.
      exists n. split; [reflexivity|]. left. exists hs, h. auto.
  - pose proof (no_match_without_headers _ Eh) as Hno.
    destruct (F Hno) as (n & -> & Hr & Hn).
    exists n. split; [reflexivity|]. right. auto.
Qed.

Lemma NumericColumn_cellValue (rows : list (list string)) (n : nat) :
  NumericColumn rows n ->
  Forall (fun row => cellValue (Z.of_nat n) row <> Num.NaN) rows.
Proof.
  intro H. apply Forall_forall. intros row Hr.
  destruct (H row Hr) as (cell & Hc & Hn).
  unfold cellValue. rewrite at_of_nat, Hc. exact Hn.
Qed.

Lemma parsedValues_all (idx : Z) (rows : list (list string)) :
  Forall (fun row => cellValue idx row <> Num.NaN) rows ->
  parsedValues idx rows = map (cellValue idx) rows.
Proof.
  unfold parsedValues. induction 1 as [|row rows Hr _ IH]; [reflexivity|].
  cbn [map filter]. apply isNaN_false_iff in Hr. rewrite Hr. cbn [negb].
  now rewrite IH.
Qed.

(** X15. When the column is found by its values (no header names the
    sales), the field of every row parses there, so no row is skipped: the
    total is the sum over all rows. *)
Theorem fallback_column_counts_every_row (t : ParsedTable) (i : Z) :
  findSalesColumn t = Ok i ->
  NoHeaderMatch t ->
  Forall (fun row => cellValue i row <> Num.NaN) (rows t)
  /\ sumSales (rows t) i = fold_left Num.add (map (cellValue i) (rows t)) Num.zero.
Proof.
  intros H Hno.
  destruct (findSalesColumn_cases _ _ H) as (n & -> & [(hs & h & Eh & Hn & Hm)|(_ & _ & Hc)]).
  - exfalso. apply (Hno n). exists hs, h.
    split; [exact Eh|]. split; [exact Hn|now apply isSalesHeader_iff].
  - pose proof (NumericColumn_cellValue _ _ Hc) as Hall.
    split; [exact Hall|].
    unfold sumSales. now rewrite sumSales_from, (parsedValues_all _ _ Hall).
Qed.

Lemma fallback_column_witness :
  Forall (fun row => cellValue 1 row <> Num.NaN) [["x"; "1"]; ["y"; "2.5"]]
  /\ sumSales [["x"; "1"]; ["y"; "2.5"]] 1
     = fold_left Num.add (map (cellValue 1) [["x"; "1"]; ["y"; "2.5"]]) Num.zero.
Proof.
  apply (fallback_column_counts_every_row
           {| headers := None; rows := [["x"; "1"]; ["y"; "2.5"]] |} 1).
  - reflexivity.
  - intros j (hs & h & H & _). discriminate H.
Defined.



(** ** The run from the CSV text *)

Lemma findSalesColumn_error (t : ParsedTable) (e : error) :
  findSalesColumn t = Throw e -> e = NoSalesColumn.
Proof.
  unfold findSalesColumn. cbn zeta.
  match goal with
  | |- (if ?b then _ else _) = _ -> _ => destruct b
  end; [now intros [= <-]|discriminate].
Qed.

Lemma parseCsv_returns (text : string) : exists t, parseCsv text = Ok t.
Proof.
  destruct (csvLines text) as [|l0 ls] eqn:E.
  - rewrite (parseCsv_no_lines _ E). eauto.
  - destruct (parseCsv_allRows _ _ _ E) as (t & H & _). eauto.
Qed.

(** X17. From the CSV text on, the run can fail in one way only: with the
    no-sales-column error.  Whatever the text holds (stray quotes, rows of
    different lengths, cells that are not numbers), it either gives a total
    or raises that error. *)
Theorem only_failure_is_no_sales_column (text : string) (e : error) :
  totalSales text = Throw e -> e = NoSalesColumn.
Proof.
  unfold totalSales. destruct (parseCsv_returns text) as [t ->]. cbn [bind].
  destruct (findSalesColumn t) as [i|e'] eqn:F; cbn [bind]; [discriminate|].
  intros [= <-]. now apply findSalesColumn_error in F.
Qed.

Lemma only_failure_witness : NoSalesColumn = NoSalesColumn.
Proof.
  apply (only_failure_is_no_sales_column "a,b" NoSalesColumn). reflexivity.
Defined.

Lemma findSalesColumn_header_found (t : ParsedTable) (hs : list string) :
  headers t = Some hs ->
  Exists NamesSales hs ->
  exists i, findSalesColumn t = Ok i.
Proof.
  intros Eh Hex. unfold findSalesColumn, JS.findIndex. rewrite Eh. cbn zeta.
  destruct (findIndex_from_spec isSalesHeader hs 0)
    as [[_ H2]|(n & h & H1 & _)].
  - exfalso. apply Exists_exists in Hex as (h & Hin & Hm).
    apply isSalesHeader_iff in Hm. rewrite (H2 _ Hin) in Hm. discriminate.
  - rewrite H1. cbn [Z.add].
    destruct (Z.of_nat n =? -1) eqn:En; [apply Z.eqb_eq in En; lia|].
    rewrite En. eauto.
Qed.

(** X18. A text with a single line kept, none of whose fields parses as a
    number and one of which names the sales, is a table of headers without
    rows: the total is zero and the text displayed is "0.00" (where a blank
    text raises the no-sales-column error). *)
Theorem header_only_total_is_zero
  (numberToString : Num.number -> string) (text l0 : string) :
  csvLines text = [l0] ->
  Forall NonNumeric (parseLine (detectDelimiter l0) l0) ->
  Exists NamesSales (parseLine (detectDelimiter l0) l0) ->
  totalSales text = Ok Num.zero
  /\ salesText numberToString text = Ok "0.00".
Proof.
  intros E Hnon Hex.
  assert (P : parseCsv text
              = Ok {| headers := Some (parseLine (detectDelimiter l0) l0);
                      rows := [] |}).
  { rewrite (parseCsv_lines _ _ _ E). cbn [map]. rewrite inferHeaders_cons.
    apply forallb_NonNumeric in Hnon. now rewrite Hnon. }
  assert (T : totalSales text = Ok Num.zero).
  { unfold totalSales. rewrite P. cbn [bind].
    destruct (findSalesColumn_header_found
                {| headers := Some (parseLine (detectDelimiter l0) l0); rows := [] |}
                _ eq_refl Hex) as [i ->].
    reflexivity. }
  split; [exact T|]. unfold salesText. rewrite T. reflexivity.
Qed.

Lemma header_only_witness :
  totalSales ("Item,Sales" ++ LF) = Ok Num.zero
  /\ salesText (fun _ => EmptyString) ("Item,Sales" ++ LF) = Ok "0.00".
Proof.
  apply (header_only_total_is_zero (fun _ => EmptyString) ("Item,Sales" ++ LF) "Item,Sales").
  - reflexivity.
  - repeat constructor.
  - apply Exists_cons_tl, Exists_cons_hd. left.
    now exists EmptyString, EmptyString.
Defined.

(** ** The element *)

Lemma classRemove_In (names classes : list string) (c : string) :
  In c (classRemove names classes) <-> In c classes /\ ~ In c names.
Proof.
  unfold classRemove. rewrite filter_In, negb_true_iff.
  rewrite <- (existsb_eqb_In c names).
  destruct (existsb (String.eqb c) names); split; intros [? ?]; split;
    try assumption; try discriminate; try reflexivity.
  now contradiction H0.
Qed.

Lemma classAdd_In (name : string) (classes : list string) (c : string) :
  In c (classAdd name classes) <-> c = name \/ In c classes.
Proof.
  unfold classAdd. destruct (existsb (String.eqb name) classes) eqn:E.
  - apply existsb_eqb_In in E. split; [now right|]. intros [->|H]; assumption.
  - rewrite in_app_iff. cbn [In]. split.
    + intros [H|[H|[]]]; [now right|now left].
    + intros [H|H]; [right; now left|now left].
Qed.

Lemma classAdd_NoDup (name : string) (classes : list string) :
  NoDup classes -> NoDup (classAdd name classes).
Proof.
  intro H. unfold classAdd. destruct (existsb (String.eqb name) classes) eqn:E;
    [exact H|].
  apply NoDup_app; [exact H|repeat constructor; intros []|].
  intros c Hc [<-|[]].
  apply existsb_eqb_In in Hc. congruence.
Qed.

Lemma classRemove_NoDup (names classes : list string) :
  NoDup classes -> NoDup (classRemove names classes).
Proof. intro H. now apply NoDup_filter. Qed.

(** X19. What a run leaves on the element.  The loading state is gone;
    the success state is there exactly when the run gave a text, and then
    this text is shown; the error state is there exactly when the run threw,
    and then the fixed error text is shown; success and error are never
    there together; every other class is kept, and the class list stays
    free of doubles. *)
Theorem render_leaves_one_state (el : Element) (r : result string) :
  let el' := render el r in
  ~ In "loading" (classList el')
  /\ (In "success" (classList el') <-> exists text, r = Ok text)
  /\ (In "error" (classList el') <-> exists e, r = Throw e)
  /\ ~ (In "success" (classList el') /\ In "error" (classList el'))
  /\ (forall text, r = Ok text -> textContent el' = text)
  /\ (forall e, r = Throw e -> textContent el' = "Error loading data")
  /\ (forall c, c <> "loading" -> c <> "success" -> c <> "error" ->
                (In c (classList el') <-> In c (classList el)))
  /\ (NoDup (classList el) -> NoDup (classList el')).
Proof.
  destruct r as [text|e]; cbn [render classList textContent];
    rewrite !classAdd_In, !classRemove_In; cbn [In].
  - split; [intros [H|[_ H]]; [discriminate|tauto]|].
    split; [split; [eauto|tauto]|].
    split; [split; [intros [H|[_ H]]; [discriminate|tauto]|intros [e H]; discriminate]|].
    split; [intros [_ [H|[_ H]]]; [discriminate|tauto]|].
    split; [now intros ? [= <-]|]. split; [discriminate|].
    split.
    + intros c H1 H2 H3. rewrite classAdd_In, classRemove_In. cbn [In].
      split; [tauto|]. intro H. right. split; [exact H|].
      intros [E|[E|[]]]; congruence.
    + intro H. now apply classAdd_NoDup, classRemove_NoDup.
  - split; [intros [H|[_ H]]; [discriminate|tauto]|].
    split; [split; [intros [H|[_ H]]; [discriminate|tauto]|intros [t H]; discriminate]|].
    split; [split; [eauto|tauto]|].
    split; [intros [[H|[_ H]] _]; [discriminate|tauto]|].
    split; [discriminate|]. split; [reflexivity|].
    split.
    + intros c H1 H2 H3. rewrite classAdd_In, classRemove_In. cbn [In].
      split; [tauto|]. intro H. right. split; [exact H|].
      intros [E|[E|[]]]; congruence.
    + intro H. now apply classAdd_NoDup, classRemove_NoDup.
Qed.

Lemma render_leaves_one_state_witness :
  NoDup (classList (render {| textContent := "Loading..."; classList := ["total"; "loading"] |}
                      (Throw NoSalesColumn))).
Proof.
  destruct (render_leaves_one_state
              {| textContent := "Loading..."; classList := ["total"; "loading"] |}
              (Throw NoSalesColumn)) as (_ & _ & _ & _ & _ & _ & _ & H).
  apply H. repeat constructor; cbn; intuition discriminate.
Defined.

(** ** The whole run *)

Lemma asciiOnly_AllChars (s : string) :
  asciiOnly s = true -> AllChars IsAscii s.
Proof.
  induction s as [|c s IH]; cbn [asciiOnly AllChars]; [auto|].
  rewrite andb_true_iff. intros [Hc Hs]. split; [|now apply IH].
  now apply Nat.ltb_lt.
Qed.

(** The attachment is found, its URL is an inline one of media type
    "text/csv" with the base64 flag, and its payload is handed to the
    base64 decoder. *)
Lemma loadCsvText_embedded
  (atobText decodeURIComponent fetchText : string -> option string) :
  loadCsvText atobText decodeURIComponent fetchText
  = orThrow Base64DecodeFailed (atobText embeddedPayload).
Proof.
  unfold loadCsvText, attachments. cbn [find name url String.eqb Ascii.eqb Bool.eqb].
  cbn [bind orThrow].
  replace (JS.startsWith _ "data:") with true by reflexivity.
  unfold decodeDataUrl.
  replace (parseDataUrl _)
    with (Ok {| mime := "text/csv"; isBase64 := true; payload := embeddedPayload |})
    by (vm_compute; reflexivity).
  reflexivity.
Qed.

(** X20. The run reads the attachment embedded in the script and nothing
    else: the CSV text is the base64 decoding of its payload, so neither
    [fetch] nor [decodeURIComponent] has any influence; when the decoding
    fails the element is left in the error state, and otherwise it shows
    what the decoded text gives. *)
Theorem init_reads_embedded_attachment
  (atobText decodeURIComponent fetchText : string -> option string)
  (numberToString : Num.number -> string) (el : Element) :
  loadCsvText atobText decodeURIComponent fetchText
  = orThrow Base64DecodeFailed (atobText embeddedPayload)
  /\ (atobText embeddedPayload = None ->
      init atobText decodeURIComponent fetchText numberToString el = errorState el)
  /\ (forall csvText,
        atobText embeddedPayload = Some csvText ->
        init atobText decodeURIComponent fetchText numberToString el
        = render el (salesText numberToString csvText)).
Proof.
  split; [apply loadCsvText_embedded|].
  unfold init. rewrite loadCsvText_embedded.
  split.
  - intros ->. reflexivity.
  - intros csvText ->. reflexivity.
Qed.

Lemma init_reads_embedded_attachment_witness :
  init (fun _ => None) (fun p => Some p) (fun _ => Some "1,2") (fun _ => EmptyString)
    {| textContent := "Loading..."; classList := ["loading"] |}
  = errorState {| textContent := "Loading..."; classList := ["loading"] |}.
Proof.
  destruct (init_reads_embedded_attachment (fun _ => None) (fun p => Some p)
              (fun _ => Some "1,2") (fun _ => EmptyString)
              {| textContent := "Loading..."; classList := ["loading"] |})
    as (_ & H & _).
  apply H. reflexivity.
Defined.

(** X21. With a host that decodes base64 payloads of ASCII text to that
    text, the run ends with the element showing "1234.56" in the success
    state, whatever [fetch], [decodeURIComponent] and the printing of large
    numbers do. *)
Theorem init_shows_embedded_total
  (atobText decodeURIComponent fetchText : string -> option string)
  (numberToString : Num.number -> string) (el : Element) :
  DecodesAscii atobText ->
  init atobText decodeURIComponent fetchText numberToString el
  = successState el "1234.56".
Proof.
  intro H.
  assert (D : atobText embeddedPayload = Some sampleCsv).
  { apply H; [vm_compute; reflexivity|]. apply asciiOnly_AllChars. reflexivity. }
  unfold init. rewrite loadCsvText_embedded, D. cbn [orThrow bind].
  replace (salesText numberToString sampleCsv) with (Ok "1234.56" : result string)
    by (vm_compute; reflexivity).
  reflexivity.
Qed.

Lemma init_shows_embedded_total_witness :
  init Base64.atob (fun _ => None) (fun _ => None) (fun _ => EmptyString)
    {| textContent := "Loading..."; classList := ["loading"] |}
  = {| textContent := "1234.56"; classList := ["success"] |}.
Proof.
  apply (init_shows_embedded_total Base64.atob (fun _ => None) (fun _ => None)
           (fun _ => EmptyString)
           {| textContent := "Loading..."; classList := ["loading"] |}).
  intros b64 text H _. exact H.
Defined.
